(** * CloudFlareManager: DNS reconciliation, health aggregation and
      deployment readiness

    A shallow embedding of the reconciliation and health-assessment methods
    of [CloudFlareManager.ts]:

    - [validateAndFixDnsRecords]          (DNS reconciler)
    - [comprehensiveHealthCheck]          (component validator, simple aggregation)
    - [validateConnectreeInfrastructure]  (strict aggregation)
    - [prepareDeploymentEnvironment]      (environment preparation)
    - [generateDeploymentReport]          (readiness score)
    - [bulkCreateDnsRecords]              (sequential creation)

    The transport ([makeApiRequest]) is not embedded: every REST endpoint the
    methods use is an oracle of the [Remote] record, which answers with a
    value of the declared TypeScript type or with a thrown value, and may
    depend on the requests made so far ([dryRun], where every request is
    answered with an empty object, is outside the model).  Numbers are
    integers.  Asynchronous methods are
    computations in the monad [M], which threads the list of requests sent.
    Logger calls only print to the console and are left out. *)

From Stdlib Require Import String List ZArith Bool Lia Permutation.
From Stdlib Require Import QArith Qround DecimalString.
Import ListNotations.

Local Open Scope string_scope.
Local Open Scope list_scope.

(** ** JavaScript values and helpers *)

(** What a [throw] carries: an [Error] object with its message, or any other
    value ([error instanceof Error] is false for it). *)
Inductive Thrown : Type :=
| ErrorObj (message : string)
| NonError.

(** [error instanceof Error ? error.message : 'Unknown error'] *)
Definition errorMessage (e : Thrown) : string :=
  match e with
  | ErrorObj m => m
  | NonError => "Unknown error"
  end.

(** Truthiness of an optional string: [undefined] and [''] are falsy. *)
Definition truthy_string (s : option string) : bool :=
  match s with
  | Some s' => negb (s' =? "")
  | None => false
  end.

(** Truthiness of an optional boolean. *)
Definition truthy_bool (b : option bool) : bool :=
  match b with
  | Some b' => b'
  | None => false
  end.

(** Truthiness of an optional number (integers only: [0] and [undefined]
    are falsy). *)
Definition truthy_number (n : option Z) : bool :=
  match n with
  | Some z => negb (z =? 0)%Z
  | None => false
  end.

(** [a || b] on optional strings. *)
Definition or_string (a b : option string) : option string :=
  if truthy_string a then a else b.

(** [a ?? d] *)
Definition nullish {A : Type} (a : option A) (d : A) : A :=
  match a with
  | Some x => x
  | None => d
  end.

(** [Array.prototype.includes] on strings. *)
Definition includes (l : list string) (s : string) : bool :=
  existsb (String.eqb s) l.

(** [Array.prototype.join] *)
Definition join (sep : string) (l : list string) : string :=
  String.concat sep l.

(** [String(n)] for an array length. *)
Definition string_of_length (n : nat) : string :=
  NilEmpty.string_of_uint (Nat.to_uint n).

(** [Math.round] on an exact rational: the nearest integer, halves up. *)
Definition Math_round (q : Q) : Z :=
  Qfloor (q + (1 # 2))%Q.

(** ** Data model *)

Inductive Status : Type := healthy | degraded | unhealthy.

Definition Status_eqb (a b : Status) : bool :=
  match a, b with
  | healthy, healthy | degraded, degraded | unhealthy, unhealthy => true
  | _, _ => false
  end.

Inductive Environment : Type := staging | production.

(** The argument type of [validateAndFixDnsRecords]:
    [{name, type, content, proxied?, ttl?}]. *)
Record ExpectedRecord : Type := mkExpected {
  exp_name : string;
  exp_type : string;
  exp_content : string;
  exp_proxied : option bool;
  exp_ttl : option Z
}.

(** [interface DnsRecord], with the fields the methods read. *)
Record DnsRecord : Type := mkDnsRecord {
  rec_id : string;
  rec_name : string;
  rec_type : string;
  rec_content : string;
  rec_proxied : bool;
  rec_ttl : Z
}.

Record Worker : Type := mkWorker {
  worker_id : string;
  worker_name : string
}.

Record PagesProject : Type := mkPagesProject {
  project_id : string;
  project_name : string;
  project_domains : list string
}.

Record Zone : Type := mkZone {
  zone_id : string;
  zone_name : string
}.

Record Certificate : Type := mkCertificate {
  cert_id : string
}.

Inductive IssueType : Type := missing | incorrect | extra.

(** One entry of the [issues] array.  [record] is the expected record for a
    missing entry and the existing one for an incorrect entry. *)
Record Issue : Type := mkIssue {
  issue_type : IssueType;
  issue_record : ExpectedRecord + DnsRecord;
  issue_expected : option ExpectedRecord;
  issue_action : string
}.

Record DnsValidation : Type := mkDnsValidation {
  valid : bool;
  issues : list Issue;
  fixed : bool
}.

Record CloudFlareConfig : Type := mkConfig {
  accountId : string;
  zoneId : option string
}.

(** ** The remote provider *)

(** The requests the embedded methods send. *)
Inductive ApiCall : Type :=
| GET_workers_scripts
| GET_workers_script (scriptName : string)
| GET_pages_projects
| GET_pages_project (projectName : string)
| POST_pages_projects (projectName : string)
| GET_zones
| GET_dns_records (zone : string)
| POST_dns_records (zone : string) (record : ExpectedRecord)
| PUT_dns_records (zone : string) (recordId : string) (record : ExpectedRecord)
| GET_certificate_packs (zone : string).

Definition Trace : Type := list ApiCall.

Inductive Outcome (A : Type) : Type :=
| Ok (a : A)
| Throw (e : Thrown).

Arguments Ok {A} a.
Arguments Throw {A} e.

(** The answers of the provider, each a function of the requests sent
    before. *)
Record Remote : Type := mkRemote {
  remote_listWorkers : Trace -> Outcome (list Worker);
  remote_getWorker : string -> Trace -> Outcome Worker;
  remote_listPagesProjects : Trace -> Outcome (list PagesProject);
  remote_getPagesProject : string -> Trace -> Outcome PagesProject;
  remote_createPagesProject : string -> Trace -> Outcome PagesProject;
  remote_listZones : Trace -> Outcome (list Zone);
  remote_listDnsRecords : string -> Trace -> Outcome (list DnsRecord);
  remote_createDnsRecord : string -> ExpectedRecord -> Trace -> Outcome DnsRecord;
  remote_updateDnsRecord :
    string -> string -> ExpectedRecord -> Trace -> Outcome DnsRecord;
  remote_listCertificates : string -> Trace -> Outcome (list Certificate)
}.

(** ** The monad of asynchronous methods *)

Definition M (A : Type) : Type := Trace -> Outcome A * Trace.

Definition ret {A : Type} (a : A) : M A := fun t => (Ok a, t).

Definition throw {A : Type} (e : Thrown) : M A := fun t => (Throw e, t).

Definition bind {A B : Type} (m : M A) (k : A -> M B) : M B :=
  fun t =>
    match m t with
    | (Ok a, t') => k a t'
    | (Throw e, t') => (Throw e, t')
    end.

(** [try { m } catch (error) { h error }] and [m.catch(h)] *)
Definition try_catch {A : Type} (m : M A) (h : Thrown -> M A) : M A :=
  fun t =>
    match m t with
    | (Ok a, t') => (Ok a, t')
    | (Throw e, t') => h e t'
    end.

(** Starts [m] without awaiting it: the settled promise is a value. *)
Definition start {A : Type} (m : M A) : M (Outcome A) :=
  fun t => let (o, t') := m t in (Ok o, t').

(** [await p] for a settled promise. *)
Definition await {A : Type} (p : Outcome A) : M A :=
  fun t => (p, t).

(** One request: the provider answers from the requests sent before it. *)
Definition request {A : Type} (c : ApiCall) (answer : Trace -> Outcome A) : M A :=
  fun t => (answer t, t ++ [c]).

Declare Scope monad_scope.
Delimit Scope monad_scope with monad.
Notation "x <- m ;; k" := (bind m (fun x => k))
  (at level 61, m at next level, right associativity) : monad_scope.
Notation "m ;;; k" := (bind m (fun _ => k))
  (at level 61, right associativity) : monad_scope.
Local Open Scope monad_scope.

(** [Promise.all([p1, p2, p3, p4])]: the four operations have already been
    started, in this order; the result is the tuple of their values, or a
    rejection when any of them rejected (here the first in array order). *)
Definition Promise_all4 {A B C D : Type}
    (p1 : Outcome A) (p2 : Outcome B) (p3 : Outcome C) (p4 : Outcome D)
    : M (A * B * C * D) :=
  a <- await p1 ;;
  b <- await p2 ;;
  c <- await p3 ;;
  d <- await p4 ;;
  ret (a, b, c, d).

(** ** REST wrappers *)

Section Manager.

Variable config : CloudFlareConfig.
Variable remote : Remote.

Definition listWorkers : M (list Worker) :=
  request GET_workers_scripts (remote_listWorkers remote).

Definition getWorker (scriptName : string) : M Worker :=
  request (GET_workers_script scriptName) (remote_getWorker remote scriptName).

Definition listPagesProjects : M (list PagesProject) :=
  request GET_pages_projects (remote_listPagesProjects remote).

Definition getPagesProject (projectName : string) : M PagesProject :=
  request (GET_pages_project projectName)
          (remote_getPagesProject remote projectName).

Definition createPagesProject (projectName : string) : M PagesProject :=
  request (POST_pages_projects projectName)
          (remote_createPagesProject remote projectName).

Definition listZones : M (list Zone) :=
  request GET_zones (remote_listZones remote).

Definition zoneRequired : Thrown := ErrorObj "Zone ID is required".

(** [const zone = zoneId || this.config.zoneId;
     if (!zone) throw new Error('Zone ID is required');] *)
Definition zoneOrThrow (zoneId' : option string) : M string :=
  let zone := or_string zoneId' (zoneId config) in
  if negb (truthy_string zone)
  then throw zoneRequired
  else match zone with
       | Some z => ret z
       | None => throw zoneRequired
       end.

Definition listDnsRecords (zoneId' : option string) : M (list DnsRecord) :=
  zone <- zoneOrThrow zoneId' ;;
  request (GET_dns_records zone) (remote_listDnsRecords remote zone).

Definition createDnsRecord (record : ExpectedRecord) (zoneId' : option string)
  : M DnsRecord :=
  zone <- zoneOrThrow zoneId' ;;
  request (POST_dns_records zone record)
          (remote_createDnsRecord remote zone record).

Definition updateDnsRecord (recordId : string) (record : ExpectedRecord)
    (zoneId' : option string) : M DnsRecord :=
  zone <- zoneOrThrow zoneId' ;;
  request (PUT_dns_records zone recordId record)
          (remote_updateDnsRecord remote zone recordId record).

Definition listCertificates (zoneId' : option string) : M (list Certificate) :=
  zone <- zoneOrThrow zoneId' ;;
  request (GET_certificate_packs zone) (remote_listCertificates remote zone).

(** ** DNS reconciler *)

(** The predicate of [existingRecords.find]. *)
Definition sameKey (expected : ExpectedRecord) (r : DnsRecord) : bool :=
  (rec_name r =? exp_name expected) && (rec_type r =? exp_type expected).

(** The condition of the [else if]: content, proxied or ttl differ. *)
Definition differs (existing : DnsRecord) (expected : ExpectedRecord) : bool :=
  negb (rec_content existing =? exp_content expected)
  || negb (Bool.eqb (rec_proxied existing) (nullish (exp_proxied expected) false))
  || (truthy_number (exp_ttl expected)
      && match exp_ttl expected with
         | Some t => negb (rec_ttl existing =? t)%Z
         | None => true
         end).

(** The record literal passed to the two writes: a copy of the five
    fields. *)
Definition payload (expected : ExpectedRecord) : ExpectedRecord :=
  {| exp_name := exp_name expected;
     exp_type := exp_type expected;
     exp_content := exp_content expected;
     exp_proxied := exp_proxied expected;
     exp_ttl := exp_ttl expected |}.

Definition missingIssue (autoFix : bool) (expected : ExpectedRecord) : Issue :=
  {| issue_type := missing;
     issue_record := inl expected;
     issue_expected := None;
     issue_action := if autoFix then "CREATE" else "REQUIRES_CREATION" |}.

Definition incorrectIssue (autoFix : bool) (existing : DnsRecord)
    (expected : ExpectedRecord) : Issue :=
  {| issue_type := incorrect;
     issue_record := inr existing;
     issue_expected := Some expected;
     issue_action := if autoFix then "UPDATE" else "REQUIRES_UPDATE" |}.

(** The [for (const expected of expectedRecords)] loop; [issues] is the
    array being filled. *)
Fixpoint checkRecords (existingRecords : list DnsRecord) (zone : string)
    (autoFix : bool) (expectedRecords : list ExpectedRecord)
    (issues : list Issue) : M (list Issue) :=
  match expectedRecords with
  | [] => ret issues
  | expected :: rest =>
      match find (sameKey expected) existingRecords with
      | None =>
          let issues := issues ++ [missingIssue autoFix expected] in
          (if autoFix
           then try_catch
                  (_ <- createDnsRecord (payload expected) (Some zone) ;; ret tt)
                  (fun _ => ret tt)
           else ret tt) ;;;
          checkRecords existingRecords zone autoFix rest issues
      | Some existing =>
          if differs existing expected
          then
            let issues := issues ++ [incorrectIssue autoFix existing expected] in
            (if autoFix
             then try_catch
                    (_ <- updateDnsRecord (rec_id existing) (payload expected)
                                          (Some zone) ;; ret tt)
                    (fun _ => ret tt)
             else ret tt) ;;;
            checkRecords existingRecords zone autoFix rest issues
          else checkRecords existingRecords zone autoFix rest issues
      end
  end.

Definition validateAndFixDnsRecords (expectedRecords : list ExpectedRecord)
    (zoneId' : option string) (autoFix : bool) : M DnsValidation :=
  zone <- zoneOrThrow zoneId' ;;
  existingRecords <- listDnsRecords (Some zone) ;;
  issues <- checkRecords existingRecords zone autoFix expectedRecords [] ;;
  let valid := (length issues =? 0)%nat in
  let fixed := autoFix && (0 <? length issues)%nat in
  ret {| valid := valid; issues := issues; fixed := fixed |}.

(** ** Component validator and simple aggregation *)

Definition checkWorkerHealth (scriptName : string) : M bool :=
  try_catch (_ <- getWorker scriptName ;; ret true) (fun _ => ret false).

Definition checkPagesHealth (projectName : string) : M bool :=
  try_catch (_ <- getPagesProject projectName ;; ret true) (fun _ => ret false).

(** An entry of [services]: [{status, count}] (the count is called
    [records] for dns and [certificates] for ssl). *)
Record Service : Type := mkService {
  svc_status : Status;
  svc_count : nat
}.

Record Services : Type := mkServices {
  svc_workers : Service;
  svc_pages : Service;
  svc_dns : Service;
  svc_ssl : Service
}.

(** [Object.values(services)], in insertion order. *)
Definition Object_values (s : Services) : list Service :=
  [svc_workers s; svc_pages s; svc_dns s; svc_ssl s].

Record EnvironmentHealth : Type := mkEnvironmentHealth {
  frontend : bool;
  api : bool
}.

Record HealthCheck : Type := mkHealthCheck {
  hc_status : Status;
  hc_services : Services;
  hc_production : EnvironmentHealth;
  hc_staging : EnvironmentHealth
}.

(** "Determine overall status": the two filters and the if-chain. *)
Definition determineStatus (values : list Service) : Status :=
  let unhealthyServices :=
    length (filter (fun s => Status_eqb (svc_status s) unhealthy) values) in
  let degradedServices :=
    length (filter (fun s => Status_eqb (svc_status s) degraded) values) in
  if (0 <? unhealthyServices)%nat then unhealthy
  else if (0 <? degradedServices)%nat then degraded
  else healthy.

Definition buildServices (workers : list Worker) (pages : list PagesProject)
    (dnsRecords : list DnsRecord) (certificates : list Certificate) : Services :=
  {| svc_workers :=
       {| svc_status := if (0 <? length workers)%nat then healthy else unhealthy;
          svc_count := length workers |};
     svc_pages :=
       {| svc_status := if (0 <? length pages)%nat then healthy else unhealthy;
          svc_count := length pages |};
     svc_dns :=
       {| svc_status := if (0 <? length dnsRecords)%nat then healthy else unhealthy;
          svc_count := length dnsRecords |};
     svc_ssl :=
       {| svc_status := if (0 <? length certificates)%nat then healthy else degraded;
          svc_count := length certificates |} |}.

Definition comprehensiveHealthCheck : M HealthCheck :=
  try_catch
    (p1 <- start listWorkers ;;
     p2 <- start listPagesProjects ;;
     p3 <- start listZones ;;
     p4 <- start (try_catch (listCertificates None) (fun _ => ret [])) ;;
     all <- Promise_all4 p1 p2 p3 p4 ;;
     let '(workers, pages, zones, certificates) := all in
     dnsRecords <- try_catch (listDnsRecords None) (fun _ => ret []) ;;
     productionFrontend <- checkPagesHealth "connectree" ;;
     productionApi <- checkWorkerHealth "connectree-api" ;;
     stagingFrontend <- checkPagesHealth "connectree" ;;
     stagingApi <- checkWorkerHealth "connectree-api-staging" ;;
     let services := buildServices workers pages dnsRecords certificates in
     let environments_production :=
       {| frontend := productionFrontend; api := productionApi |} in
     let environments_staging :=
       {| frontend := stagingFrontend; api := stagingApi |} in
     let status := determineStatus (Object_values services) in
     ret {| hc_status := status;
            hc_services := services;
            hc_production := environments_production;
            hc_staging := environments_staging |})
    (fun error => throw error).

(** ** Strict, infrastructure-wide aggregation *)

Definition expectedDnsRecords_connectree : list ExpectedRecord :=
  [ mkExpected "connectree.cc" "CNAME" "connectree.pages.dev" (Some true) (Some 1%Z);
    mkExpected "www.connectree.cc" "CNAME" "connectree.pages.dev"
               (Some true) (Some 1%Z);
    mkExpected "staging.connectree.cc" "CNAME" "connectree.pages.dev"
               (Some true) (Some 1%Z);
    mkExpected "api.connectree.cc" "CNAME"
               "connectree-api.mehya-ashani.workers.dev" (Some true) (Some 1%Z);
    mkExpected "api-staging.connectree.cc" "CNAME"
               "connectree-api-staging.mehya-ashani.workers.dev"
               (Some true) (Some 1%Z) ].

(** "Determine overall health", on the four validities and
    [dnsValidation.issues.length]. *)
Definition determineOverall (dnsValid : bool) (dnsIssues : nat)
    (pagesValid workersValid sslValid : bool) : Status :=
  if dnsValid && pagesValid && workersValid && sslValid then healthy
  else if (negb dnsValid && (dnsIssues <=? 2)%nat) || negb sslValid then degraded
  else unhealthy.

Record InfrastructureValidation : Type := mkInfrastructureValidation {
  iv_dns_valid : bool;
  iv_dns_issues : list Issue;
  iv_pages_valid : bool;
  iv_pages_domains : list string;
  iv_workers_valid : bool;
  iv_workers_workers : list string;
  iv_ssl_valid : bool;
  iv_ssl_certificates : nat;
  iv_overall : Status
}.

(** The reconciliation is started first and runs concurrently with the three
    reads; here its requests are sent before theirs. *)
Definition validateConnectreeInfrastructure (autoFix : bool)
  : M InfrastructureValidation :=
  p1 <- start (validateAndFixDnsRecords expectedDnsRecords_connectree None autoFix) ;;
  p2 <- start listPagesProjects ;;
  p3 <- start listWorkers ;;
  p4 <- start (try_catch (listCertificates None) (fun _ => ret [])) ;;
  all <- Promise_all4 p1 p2 p3 p4 ;;
  let '(dnsValidation, pages, workers, certificates) := all in
  let connectreeProject :=
    find (fun p => project_name p =? "connectree") pages in
  let pagesValid :=
    match connectreeProject with
    | Some p => (0 <? length (project_domains p))%nat
    | None => false
    end in
  let expectedWorkers := ["connectree-api"; "connectree-api-staging"] in
  let existingWorkers := map worker_name workers in
  let workersValid := forallb (includes existingWorkers) expectedWorkers in
  let sslValid := (0 <? length certificates)%nat in
  let overall :=
    determineOverall (valid dnsValidation) (length (issues dnsValidation))
                     pagesValid workersValid sslValid in
  ret {| iv_dns_valid := valid dnsValidation;
         iv_dns_issues := issues dnsValidation;
         iv_pages_valid := pagesValid;
         iv_pages_domains :=
           match connectreeProject with
           | Some p => project_domains p
           | None => []
           end;
         iv_workers_valid := workersValid;
         iv_workers_workers := existingWorkers;
         iv_ssl_valid := sslValid;
         iv_ssl_certificates := length certificates;
         iv_overall := overall |}.

(** ** Environment preparation *)

Record Options : Type := mkOptions {
  validateDns : option bool;
  autoFixDns : option bool;
  ensurePages : option bool;
  validateWorkers : option bool
}.

Record Preparation : Type := mkPreparation {
  ready : bool;
  prep_issues : list string;
  prep_warnings : list string;
  prep_environment : Environment;
  pages_exists : bool;
  pages_domains : list string;
  workers_exists : bool;
  workers_names : list string;
  dns_valid : bool;
  dns_issues : list Issue
}.

Definition getExpectedDnsRecords (environment : Environment)
  : list ExpectedRecord :=
  let baseRecords :=
    [ mkExpected "connectree.cc" "CNAME" "connectree.pages.dev"
                 (Some true) (Some 1%Z);
      mkExpected "www.connectree.cc" "CNAME" "connectree.pages.dev"
                 (Some true) (Some 1%Z);
      mkExpected "api.connectree.cc" "CNAME"
                 "connectree-api.mehya-ashani.workers.dev"
                 (Some true) (Some 1%Z) ] in
  match environment with
  | staging =>
      baseRecords ++
      [ mkExpected "staging.connectree.cc" "CNAME" "connectree.pages.dev"
                   (Some true) (Some 1%Z);
        mkExpected "api-staging.connectree.cc" "CNAME"
                   "connectree-api-staging.mehya-ashani.workers.dev"
                   (Some true) (Some 1%Z) ]
  | production => baseRecords
  end.

Definition expectedPages : string := "connectree".

Definition expectedWorkersOf (environment : Environment) : list string :=
  match environment with
  | production => ["connectree-api"]
  | staging => ["connectree-api-staging"]
  end.

(** The three steps of [prepareDeploymentEnvironment].  The mutable locals
    [issues] and [warnings] are passed from one step to the next, and each
    step returns the locals it assigns. *)

(** "Check Pages project": [(pagesExists, pagesDomains, issues)]. *)
Definition checkPagesProject (options : Options) (issues : list string)
  : M (bool * list string * list string) :=
  try_catch
    (project <- getPagesProject expectedPages ;;
     ret (true, project_domains project, issues))
    (fun error =>
       if truthy_bool (ensurePages options)
       then
         try_catch
           (_ <- createPagesProject expectedPages ;;
            ret (true, [], issues))
           (fun createError =>
              ret (false, [],
                   issues ++
                   [("Failed to create Pages project '" ++ expectedPages ++
                     "': " ++ errorMessage createError)%string]))
       else
         ret (false, [],
              issues ++
              [("Pages project '" ++ expectedPages ++
                "' does not exist")%string])).

(** [expectedWorkers.filter((name) => !existingWorkers.includes(name))] *)
Definition missingWorkersOf (expectedWorkers existingWorkers : list string)
  : list string :=
  filter (fun name => negb (includes existingWorkers name)) expectedWorkers.

(** "Check Workers": [(workersValid, existingWorkers, issues, warnings)]. *)
Definition checkWorkers (environment : Environment)
    (issues warnings : list string)
  : M (bool * list string * list string * list string) :=
  let expectedWorkers := expectedWorkersOf environment in
  try_catch
    (workers <- listWorkers ;;
     let existingWorkers := map worker_name workers in
     let missingWorkers := missingWorkersOf expectedWorkers existingWorkers in
     if (length missingWorkers =? 0)%nat
     then ret (true, existingWorkers, issues, warnings)
     else ret (false, existingWorkers, issues,
               warnings ++
               [("Missing workers: " ++ join ", " missingWorkers)%string]))
    (fun error =>
       ret (false, [],
            issues ++
            [("Failed to check workers: " ++ errorMessage error)%string],
            warnings)).

(** "DNS Validation": [(dnsValid, dnsIssues, issues, warnings)]. *)
Definition checkDns (environment : Environment) (options : Options)
    (issues warnings : list string)
  : M (bool * list Issue * list string * list string) :=
  if truthy_bool (validateDns options)
  then
    try_catch
      (let expectedDnsRecords := getExpectedDnsRecords environment in
       dnsValidation <-
         validateAndFixDnsRecords expectedDnsRecords None
                                  (truthy_bool (autoFixDns options)) ;;
       let '(mkDnsValidation dnsValid dnsIssues _) := dnsValidation in
       if dnsValid
       then ret (dnsValid, dnsIssues, issues, warnings)
       else
         if negb (truthy_bool (autoFixDns options))
         then ret (dnsValid, dnsIssues, issues,
                   warnings ++
                   [("DNS issues found (use --fix to auto-repair): " ++
                     string_of_length (length dnsIssues) ++ " issues")%string])
         else ret (dnsValid, dnsIssues, issues, warnings))
      (fun error =>
         ret (false, [],
              issues ++
              [("DNS validation failed: " ++ errorMessage error)%string],
              warnings))
  else ret (false, [], issues, warnings).

Definition prepareDeploymentEnvironment (environment : Environment)
    (options : Options) : M Preparation :=
  let issues : list string := [] in
  let warnings : list string := [] in
  step1 <- checkPagesProject options issues ;;
  let '(pagesExists, pagesDomains, issues) := step1 in
  step2 <- checkWorkers environment issues warnings ;;
  let '(workersValid, existingWorkers, issues, warnings) := step2 in
  step3 <- checkDns environment options issues warnings ;;
  let '(dnsValid, dnsIssues, issues, warnings) := step3 in
  let ready :=
    (length issues =? 0)%nat
    && (if truthy_bool (validateDns options) then dnsValid else true) in
  ret {| ready := ready;
         prep_issues := issues;
         prep_warnings := warnings;
         prep_environment := environment;
         pages_exists := pagesExists;
         pages_domains := pagesDomains;
         workers_exists := workersValid;
         workers_names := existingWorkers;
         dns_valid := dnsValid;
         dns_issues := dnsIssues |}.

(** ** Readiness score *)

Inductive Readiness : Type := status_ready | status_issues | status_failed.

Record Summary : Type := mkSummary {
  summary_status : Readiness;
  readiness : Z
}.

Record Report : Type := mkReport {
  timestamp : string;
  report_environment : Environment;
  summary : Summary;
  components_preparation : Preparation;
  components_ssl : Service;
  components_overall : Status;
  recommendations : list string
}.

(** The score of the four checks: [passedChecks], [readiness] and the
    threshold chain. *)
Definition summarize (dnsValid pagesExists workersExists sslHealthy : bool)
  : Summary :=
  let totalChecks := 4%Z in
  let passedChecks := 0%Z in
  let passedChecks := if dnsValid then (passedChecks + 1)%Z else passedChecks in
  let passedChecks := if pagesExists then (passedChecks + 1)%Z else passedChecks in
  let passedChecks := if workersExists then (passedChecks + 1)%Z else passedChecks in
  let passedChecks := if sslHealthy then (passedChecks + 1)%Z else passedChecks in
  let readiness :=
    Math_round ((inject_Z passedChecks / inject_Z totalChecks) * inject_Z 100)%Q in
  let status :=
    if (100 <=? readiness)%Z then status_ready
    else if (75 <=? readiness)%Z then status_issues
    else status_failed in
  {| summary_status := status; readiness := readiness |}.

Definition recommend (dnsValid pagesExists workersExists sslHealthy : bool)
  : list string :=
  let recommendations : list string := [] in
  let recommendations :=
    if negb dnsValid
    then recommendations ++
         ["Run DNS validation with auto-fix: npx tsx CloudFlareManager.ts validate-dns --fix"]
    else recommendations in
  let recommendations :=
    if negb pagesExists
    then recommendations ++ ["Ensure Pages project exists before deployment"]
    else recommendations in
  let recommendations :=
    if negb workersExists
    then recommendations ++
         ["Deploy Workers before Pages to ensure API availability"]
    else recommendations in
  let recommendations :=
    if negb sslHealthy
    then recommendations ++
         ["Check SSL certificate status and renew if necessary"]
    else recommendations in
  recommendations.

(** [now] is the value of [new Date().toISOString()]. *)
Definition generateDeploymentReport (now : string) (environment : Environment)
  : M Report :=
  preparationResult <-
    prepareDeploymentEnvironment environment
      {| validateDns := Some true;
         autoFixDns := Some false;
         ensurePages := Some false;
         validateWorkers := Some true |} ;;
  healthCheck <- comprehensiveHealthCheck ;;
  let ssl := svc_ssl (hc_services healthCheck) in
  let sslHealthy := Status_eqb (svc_status ssl) healthy in
  ret {| timestamp := now;
         report_environment := environment;
         summary :=
           summarize (dns_valid preparationResult)
                     (pages_exists preparationResult)
                     (workers_exists preparationResult) sslHealthy;
         components_preparation := preparationResult;
         components_ssl := ssl;
         components_overall := hc_status healthCheck;
         recommendations :=
           recommend (dns_valid preparationResult)
                     (pages_exists preparationResult)
                     (workers_exists preparationResult) sslHealthy |}.

(** ** Bulk creation *)

(** [bulkCreateDnsRecords]: the records are created one after the other and
    nothing catches a failed create.  The fixed pause after each create is
    left out. *)
Fixpoint bulkCreateDnsRecords (records : list ExpectedRecord)
    (zoneId' : option string) : M unit :=
  match records with
  | [] => ret tt
  | record :: rest =>
      _ <- createDnsRecord record zoneId' ;;
      bulkCreateDnsRecords rest zoneId'
  end.

End Manager.

(** ** Pure reading of the reconciliation loop *)

(** What the loop body pushes for one expected record, read off the
    snapshot [existingRecords] alone. *)
Definition issuesFor (existingRecords : list DnsRecord) (autoFix : bool)
    (expected : ExpectedRecord) : list Issue :=
  match find (sameKey expected) existingRecords with
  | None => [missingIssue autoFix expected]
  | Some existing =>
      if differs existing expected
      then [incorrectIssue autoFix existing expected]
      else []
  end.

(** The write the loop body sends for one expected record. *)
Definition writesFor (existingRecords : list DnsRecord) (zone : string)
    (autoFix : bool) (expected : ExpectedRecord) : list ApiCall :=
  if autoFix
  then match find (sameKey expected) existingRecords with
       | None => [POST_dns_records zone (payload expected)]
       | Some existing =>
           if differs existing expected
           then [PUT_dns_records zone (rec_id existing) (payload expected)]
           else []
       end
  else [].

(** The value returned when the listing answered [existingRecords]. *)
Definition reconciled (existingRecords : list DnsRecord) (autoFix : bool)
    (expectedRecords : list ExpectedRecord) : DnsValidation :=
  let found := flat_map (issuesFor existingRecords autoFix) expectedRecords in
  {| valid := (length found =? 0)%nat;
     issues := found;
     fixed := autoFix && (0 <? length found)%nat |}.

(** The three classes of an expected record against a snapshot, each with
    the entries recorded for it.  A ttl of [0] counts as not set, as in the
    test [expected.ttl && ...]. *)
Inductive Classified (existingRecords : list DnsRecord) (autoFix : bool)
    (expected : ExpectedRecord) : list Issue -> Prop :=
| Classified_missing :
    (forall r, In r existingRecords -> sameKey expected r = false) ->
    Classified existingRecords autoFix expected [missingIssue autoFix expected]
| Classified_incorrect (existing : DnsRecord) :
    find (sameKey expected) existingRecords = Some existing ->
    (rec_content existing <> exp_content expected
     \/ rec_proxied existing <> nullish (exp_proxied expected) false
     \/ exists ttl : Z,
          exp_ttl expected = Some ttl /\ ttl <> 0%Z /\ rec_ttl existing <> ttl) ->
    Classified existingRecords autoFix expected
               [incorrectIssue autoFix existing expected]
| Classified_unflagged (existing : DnsRecord) :
    find (sameKey expected) existingRecords = Some existing ->
    rec_content existing = exp_content expected ->
    rec_proxied existing = nullish (exp_proxied expected) false ->
    (forall ttl : Z,
        exp_ttl expected = Some ttl -> ttl = 0%Z \/ rec_ttl existing = ttl) ->
    Classified existingRecords autoFix expected [].

(** The requests sent once the first, second and third read of the health
    check have been started. *)
Definition afterWorkers (t : Trace) : Trace :=
  t ++ [GET_workers_scripts].

Definition afterPages (t : Trace) : Trace :=
  afterWorkers t ++ [GET_pages_projects].

Definition afterZones (t : Trace) : Trace :=
  afterPages t ++ [GET_zones].

(** Some component of [values] has status [st]. *)
Definition has (st : Status) (values : list Service) : Prop :=
  exists s, In s values /\ svc_status s = st.

(** The three kinds of entry of the [issues] array of
    [prepareDeploymentEnvironment], by the step that pushes them. *)
Definition isPagesIssue (i : string) : Prop :=
  i = "Pages project 'connectree' does not exist"
  \/ exists e, i = ("Failed to create Pages project 'connectree': "
                    ++ errorMessage e)%string.

Definition isWorkersReadIssue (i : string) : Prop :=
  exists e, i = ("Failed to check workers: " ++ errorMessage e)%string.

Definition isDnsIssue (i : string) : Prop :=
  exists e, i = ("DNS validation failed: " ++ errorMessage e)%string.

(** The (name, type) key of an observed record. *)
Definition keyOf (r : DnsRecord) : string * string := (rec_name r, rec_type r).

(** ** Requests that change the provider *)

Definition isWrite (c : ApiCall) : bool :=
  match c with
  | POST_pages_projects _ | POST_dns_records _ _ | PUT_dns_records _ _ _ => true
  | _ => false
  end.

(** The requests [prepareDeploymentEnvironment] may send under [options]. *)
Definition allowedBy (options : Options) (c : ApiCall) : bool :=
  match c with
  | POST_pages_projects _ => truthy_bool (ensurePages options)
  | POST_dns_records _ _ | PUT_dns_records _ _ _ =>
      truthy_bool (validateDns options) && truthy_bool (autoFixDns options)
  | _ => true
  end.

(** The requests [validateConnectreeInfrastructure] may send. *)
Definition allowedByFix (autoFix : bool) (c : ApiCall) : bool :=
  match c with
  | POST_pages_projects _ => false
  | POST_dns_records _ _ | PUT_dns_records _ _ _ => autoFix
  | _ => true
  end.

(** Whatever [m] answers, the requests it adds to the trace all satisfy
    [P]. *)
Definition onlySends {A : Type} (P : ApiCall -> bool) (m : M A) : Prop :=
  forall t : Trace,
    exists added : list ApiCall,
      snd (m t) = t ++ added /\ forallb P added = true.

(** The write that repairs an issue. *)
Inductive fixes (zone : string) : Issue -> ApiCall -> Prop :=
| fixes_create (i : Issue) (expected : ExpectedRecord) :
    issue_type i = missing ->
    issue_record i = inl expected ->
    fixes zone i (POST_dns_records zone (payload expected))
| fixes_update (i : Issue) (existing : DnsRecord) (expected : ExpectedRecord) :
    issue_type i = incorrect ->
    issue_record i = inr existing ->
    issue_expected i = Some expected ->
    fixes zone i (PUT_dns_records zone (rec_id existing) (payload expected)).

(** The three fields of an issue that do not depend on autoFix. *)
Definition finding (i : Issue)
  : IssueType * (ExpectedRecord + DnsRecord) * option ExpectedRecord :=
  (issue_type i, issue_record i, issue_expected i).

(** The trace of the health check once the certificate read has settled,
    and the four probes it ends with. *)
Definition afterCertificates (config : CloudFlareConfig) (remote : Remote)
    (t : Trace) : Trace :=
  snd (try_catch (listCertificates config remote None) (fun _ => ret [])
                 (afterZones t)).

Definition environmentProbes : list ApiCall :=
  [ GET_pages_project "connectree";
    GET_workers_script "connectree-api";
    GET_pages_project "connectree";
    GET_workers_script "connectree-api-staging" ].

(** ** Sample providers *)

(** A provider with a fixed answer for every read; writes are accepted or
    refused according to [writes]. *)
Definition fixedRemote (workers : Outcome (list Worker))
    (pages : Outcome (list PagesProject)) (zones : Outcome (list Zone))
    (records : Outcome (list DnsRecord))
    (certificates : Outcome (list Certificate))
    (project : Outcome PagesProject) (writes : bool) : Remote :=
  {| remote_listWorkers := fun _ => workers;
     remote_getWorker := fun scriptName _ =>
       match workers with
       | Ok ws =>
           match find (fun w => worker_name w =? scriptName) ws with
           | Some w => Ok w
           | None => Throw (ErrorObj "API request failed: not found")
           end
       | Throw e => Throw e
       end;
     remote_listPagesProjects := fun _ => pages;
     remote_getPagesProject := fun _ _ => project;
     remote_createPagesProject := fun projectName _ =>
       if writes then Ok (mkPagesProject "p-new" projectName [])
       else Throw (ErrorObj "API request failed: forbidden");
     remote_listZones := fun _ => zones;
     remote_listDnsRecords := fun _ _ => records;
     remote_createDnsRecord := fun _ r _ =>
       if writes
       then Ok (mkDnsRecord "r-new" (exp_name r) (exp_type r) (exp_content r)
                            (nullish (exp_proxied r) false)
                            (nullish (exp_ttl r) 1%Z))
       else Throw (ErrorObj "API request failed: forbidden");
     remote_updateDnsRecord := fun _ recordId r _ =>
       if writes
       then Ok (mkDnsRecord recordId (exp_name r) (exp_type r) (exp_content r)
                            (nullish (exp_proxied r) false)
                            (nullish (exp_ttl r) 1%Z))
       else Throw (ErrorObj "API request failed: forbidden");
     remote_listCertificates := fun _ _ => certificates |}.

Definition sampleConfig : CloudFlareConfig :=
  {| accountId := "acct"; zoneId := Some "zone-1" |}.

Definition transportError : Thrown := ErrorObj "fetch failed".

(** A provider that only matters for its DNS listing. *)
Definition dnsRemote (records : list DnsRecord) (writes : bool) : Remote :=
  fixedRemote (Ok []) (Ok []) (Ok []) (Ok records) (Ok [])
              (Throw transportError) writes.

(** Scenario data: one desired CNAME and a stale observed record for it. *)
Definition desiredA : ExpectedRecord :=
  mkExpected "a.example.com" "CNAME" "target.example.net" (Some true) (Some 1%Z).

Definition observedOld : DnsRecord :=
  mkDnsRecord "r1" "a.example.com" "CNAME" "old.example.net" false 1%Z.

Definition observedA : DnsRecord :=
  mkDnsRecord "r1" "a.example.com" "CNAME" "target.example.net" true 1%Z.

(** A desired record with ttl 0 and an observed record with ttl 300. *)
Definition desiredTtl0 : ExpectedRecord :=
  mkExpected "a.example.com" "A" "192.0.2.1" None (Some 0%Z).

Definition observedTtl300 : DnsRecord :=
  mkDnsRecord "r1" "a.example.com" "A" "192.0.2.1" false 300%Z.

(** Two address records for one name, desired and observed alike. *)
Definition desiredRoundRobin : list ExpectedRecord :=
  [ mkExpected "a.example.com" "A" "192.0.2.1" (Some false) (Some 300%Z);
    mkExpected "a.example.com" "A" "192.0.2.2" (Some false) (Some 300%Z) ].

Definition observedRoundRobin : list DnsRecord :=
  [ mkDnsRecord "r1" "a.example.com" "A" "192.0.2.1" false 300%Z;
    mkDnsRecord "r2" "a.example.com" "A" "192.0.2.2" false 300%Z ].

(** The observed record that mirrors a desired one. *)
Definition mirror (e : ExpectedRecord) : DnsRecord :=
  mkDnsRecord ("id-" ++ exp_name e)%string (exp_name e) (exp_type e)
              (exp_content e) (nullish (exp_proxied e) false)
              (nullish (exp_ttl e) 1%Z).

Definition connectreeWorkers : list Worker :=
  [ mkWorker "w1" "connectree-api"; mkWorker "w2" "connectree-api-staging" ].

Definition connectreeProject : PagesProject :=
  mkPagesProject "p1" "connectree" ["connectree.cc"].

Definition connectreeZone : Zone := mkZone "zone-1" "connectree.cc".

(** All DNS records and both workers in place, no hosting project and no
    certificate. *)
Definition remoteWithoutPages : Remote :=
  fixedRemote (Ok connectreeWorkers) (Ok []) (Ok [connectreeZone])
              (Ok (map mirror expectedDnsRecords_connectree)) (Ok [])
              (Throw transportError) true.

(** Everything in place except that the certificate read fails. *)
Definition remoteCertificatesDown : Remote :=
  fixedRemote (Ok connectreeWorkers) (Ok [connectreeProject])
              (Ok [connectreeZone])
              (Ok (map mirror expectedDnsRecords_connectree))
              (Throw transportError) (Ok connectreeProject) true.

(** The hosting project is there, the workers are not. *)
Definition remoteWithoutWorkers : Remote :=
  fixedRemote (Ok []) (Ok [connectreeProject]) (Ok [connectreeZone])
              (Ok (map mirror expectedDnsRecords_connectree)) (Ok [])
              (Ok connectreeProject) true.

(** The hosting-project list cannot be read. *)
Definition remotePagesDown : Remote :=
  fixedRemote (Ok connectreeWorkers) (Throw transportError)
              (Ok [connectreeZone])
              (Ok (map mirror expectedDnsRecords_connectree)) (Ok [])
              (Ok connectreeProject) true.

Definition noOptions : Options :=
  {| validateDns := None; autoFixDns := None; ensurePages := None;
     validateWorkers := None |}.


(** Everything is in place, certificates included. *)
Definition remoteAllPresent : Remote :=
  fixedRemote (Ok connectreeWorkers) (Ok [connectreeProject])
              (Ok [connectreeZone])
              (Ok (map mirror expectedDnsRecords_connectree))
              (Ok [mkCertificate "c1"]) (Ok connectreeProject) true.

(** The DNS records cannot be listed. *)
Definition remoteDnsDown : Remote :=
  fixedRemote (Ok connectreeWorkers) (Ok [connectreeProject])
              (Ok [connectreeZone]) (Throw transportError)
              (Ok [mkCertificate "c1"]) (Ok connectreeProject) true.

(** One stale DNS record, both workers, no certificate. *)
Definition remoteStaleDns : Remote :=
  fixedRemote (Ok connectreeWorkers) (Ok []) (Ok [])
              (Ok [observedOld]) (Ok []) (Ok connectreeProject) true.

Definition fixOptions : Options :=
  {| validateDns := Some true; autoFixDns := Some true;
     ensurePages := None; validateWorkers := None |}.

(** ** Properties *)

Section ReconcilerLemmas.

Variable config : CloudFlareConfig.
Variable remote : Remote.

(** *** Zone resolution *)

Lemma zoneOrThrow_inv (zoneId' : option string) (t t' : Trace) (zone : string) :
  zoneOrThrow config zoneId' t = (Ok zone, t') ->
  t' = t /\ truthy_string (Some zone) = true
  /\ or_string zoneId' (zoneId config) = Some zone.
Proof.
  unfold zoneOrThrow.
  destruct (or_string zoneId' (zoneId config)) as [z|] eqn:Hz; cbn.
  - destruct (negb (z =? "")) eqn:Hn; cbn; unfold ret, throw; intros H.
    + inversion H; subst. repeat split; cbn; assumption.
    + discriminate H.
  - unfold throw. discriminate.
Qed.

Lemma zoneOrThrow_truthy (zone : string) (t : Trace) :
  truthy_string (Some zone) = true ->
  zoneOrThrow config (Some zone) t = (Ok zone, t).
Proof.
  intros H. unfold zoneOrThrow, or_string. rewrite H. cbn in H |- *.
  rewrite H. reflexivity.
Qed.

Lemma zoneOrThrow_resolved (zoneId' : option string) (zone : string) (t : Trace) :
  or_string zoneId' (zoneId config) = Some zone ->
  truthy_string (Some zone) = true ->
  zoneOrThrow config zoneId' t = (Ok zone, t).
Proof.
  intros Hz H. unfold zoneOrThrow. rewrite Hz, H. reflexivity.
Qed.

(** *** The loop *)

Lemma checkRecords_run (existingRecords : list DnsRecord) (zone : string)
    (autoFix : bool) (expectedRecords : list ExpectedRecord) :
  truthy_string (Some zone) = true ->
  forall (acc : list Issue) (t : Trace),
    checkRecords config remote existingRecords zone autoFix expectedRecords acc t
    = (Ok (acc ++ flat_map (issuesFor existingRecords autoFix) expectedRecords),
       t ++ flat_map (writesFor existingRecords zone autoFix) expectedRecords).
Proof.
  intros Hzone.
  induction expectedRecords as [|expected rest IH]; intros acc t.
  - cbn. unfold ret. now rewrite !app_nil_r.
  - cbn [checkRecords flat_map].
    unfold issuesFor at 1, writesFor at 1.
    destruct (find (sameKey expected) existingRecords) as [existing|] eqn:Hfind.
    + destruct (differs existing expected) eqn:Hd.
      * destruct autoFix.
        -- unfold bind at 1, try_catch, bind, updateDnsRecord, bind.
           rewrite (zoneOrThrow_truthy zone t Hzone).
           unfold request, ret.
           destruct (remote_updateDnsRecord remote zone (rec_id existing)
                       (payload expected) t);
             rewrite IH, <- !app_assoc; reflexivity.
        -- unfold bind at 1, ret. rewrite IH, <- !app_assoc. reflexivity.
      * rewrite IH. destruct autoFix; reflexivity.
    + destruct autoFix.
      * unfold bind at 1, try_catch, bind, createDnsRecord, bind.
        rewrite (zoneOrThrow_truthy zone t Hzone).
        unfold request, ret.
        destruct (remote_createDnsRecord remote zone (payload expected) t);
          rewrite IH, <- !app_assoc; reflexivity.
      * unfold bind at 1, ret. rewrite IH, <- !app_assoc. reflexivity.
Qed.

(** *** The reconciler, case by case *)

Lemma validateAndFixDnsRecords_ok (expectedRecords : list ExpectedRecord)
    (zoneId' : option string) (autoFix : bool) (t : Trace)
    (zone : string) (existingRecords : list DnsRecord) :
  or_string zoneId' (zoneId config) = Some zone ->
  truthy_string (Some zone) = true ->
  remote_listDnsRecords remote zone t = Ok existingRecords ->
  validateAndFixDnsRecords config remote expectedRecords zoneId' autoFix t
  = (Ok (reconciled existingRecords autoFix expectedRecords),
     t ++ GET_dns_records zone
       :: flat_map (writesFor existingRecords zone autoFix) expectedRecords).
Proof.
  intros Hz Hzone Hlist.
  unfold validateAndFixDnsRecords, bind at 1.
  rewrite (zoneOrThrow_resolved _ _ t Hz Hzone).
  unfold bind at 1, listDnsRecords, bind at 1.
  rewrite (zoneOrThrow_truthy zone t Hzone).
  unfold request. rewrite Hlist.
  unfold bind. rewrite (checkRecords_run _ _ _ _ Hzone). cbn [app].
  unfold ret, reconciled. rewrite <- app_assoc. reflexivity.
Qed.

Lemma validateAndFixDnsRecords_inv (expectedRecords : list ExpectedRecord)
    (zoneId' : option string) (autoFix : bool) (t t' : Trace)
    (r : DnsValidation) :
  validateAndFixDnsRecords config remote expectedRecords zoneId' autoFix t
  = (Ok r, t') ->
  exists zone existingRecords,
    or_string zoneId' (zoneId config) = Some zone
    /\ truthy_string (Some zone) = true
    /\ remote_listDnsRecords remote zone t = Ok existingRecords
    /\ r = reconciled existingRecords autoFix expectedRecords
    /\ t' = t ++ GET_dns_records zone
              :: flat_map (writesFor existingRecords zone autoFix) expectedRecords.
Proof.
  intros Hrun.
  destruct (zoneOrThrow config zoneId' t) as [[zone|e] t0] eqn:Hz0.
  - apply zoneOrThrow_inv in Hz0 as (-> & Hzone & Hz).
    destruct (remote_listDnsRecords remote zone t) as [existingRecords|e] eqn:Hl.
    + rewrite (validateAndFixDnsRecords_ok _ _ _ _ _ _ Hz Hzone Hl) in Hrun.
      inversion Hrun; subst. exists zone, existingRecords. repeat split; auto.
    + exfalso. revert Hrun.
      unfold validateAndFixDnsRecords, bind at 1.
      rewrite (zoneOrThrow_resolved _ _ t Hz Hzone).
      unfold bind at 1, listDnsRecords, bind at 1.
      rewrite (zoneOrThrow_truthy zone t Hzone).
      unfold request. rewrite Hl. discriminate.
  - exfalso. revert Hrun.
    unfold validateAndFixDnsRecords, bind at 1. rewrite Hz0. discriminate.
Qed.

(** *** Classification of one expected record *)

Lemma differs_true_iff (existing : DnsRecord) (expected : ExpectedRecord) :
  differs existing expected = true <->
  rec_content existing <> exp_content expected
  \/ rec_proxied existing <> nullish (exp_proxied expected) false
  \/ exists ttl : Z,
       exp_ttl expected = Some ttl /\ ttl <> 0%Z /\ rec_ttl existing <> ttl.
Proof.
  unfold differs. rewrite !orb_true_iff, andb_true_iff, !negb_true_iff.
  rewrite String.eqb_neq.
  split.
  - intros [[Hc | Hp] | [Ht Hv]].
    + now left.
    + right; left. intros Heq. rewrite Heq, Bool.eqb_reflx in Hp. discriminate.
    + right; right. destruct (exp_ttl expected) as [ttl|]; [|discriminate].
      exists ttl. cbn in Ht. rewrite negb_true_iff in Ht, Hv.
      apply Z.eqb_neq in Ht, Hv. auto.
  - intros [Hc | [Hp | (ttl & Hs & H0 & Hne)]].
    + left; now left.
    + left; right. destruct (Bool.eqb _ _) eqn:E; [|reflexivity].
      apply Bool.eqb_prop in E. contradiction.
    + right. rewrite Hs. cbn. rewrite !negb_true_iff.
      split; now apply Z.eqb_neq.
Qed.

Lemma differs_false_iff (existing : DnsRecord) (expected : ExpectedRecord) :
  differs existing expected = false <->
  rec_content existing = exp_content expected
  /\ rec_proxied existing = nullish (exp_proxied expected) false
  /\ forall ttl : Z,
       exp_ttl expected = Some ttl -> ttl = 0%Z \/ rec_ttl existing = ttl.
Proof.
  unfold differs. rewrite !orb_false_iff, andb_false_iff, !negb_false_iff.
  rewrite String.eqb_eq.
  split.
  - intros [[Hc Hp] Ht]. repeat split; auto.
    + now apply Bool.eqb_prop.
    + intros ttl Hs. rewrite Hs in Ht. cbn in Ht.
      rewrite !negb_false_iff, !Z.eqb_eq in Ht. tauto.
  - intros (Hc & Hp & Ht). repeat split; auto.
    + rewrite Hp. apply Bool.eqb_reflx.
    + destruct (exp_ttl expected) as [ttl|]; cbn; [|now left].
      rewrite !negb_false_iff, !Z.eqb_eq.
      destruct (Ht ttl eq_refl); auto.
Qed.

Lemma issuesFor_Classified (existingRecords : list DnsRecord) (autoFix : bool)
    (expected : ExpectedRecord) :
  Classified existingRecords autoFix expected
             (issuesFor existingRecords autoFix expected).
Proof.
  unfold issuesFor.
  destruct (find (sameKey expected) existingRecords) as [existing|] eqn:Hf.
  - destruct (differs existing expected) eqn:Hd.
    + apply Classified_incorrect; [assumption|]. now apply differs_true_iff.
    + apply differs_false_iff in Hd as (Hc & Hp & Ht).
      now apply Classified_unflagged with existing.
  - apply Classified_missing. intros r Hin.
    now apply (find_none _ _ Hf).
Qed.

Lemma Classified_issuesFor (existingRecords : list DnsRecord) (autoFix : bool)
    (expected : ExpectedRecord) (found : list Issue) :
  Classified existingRecords autoFix expected found ->
  found = issuesFor existingRecords autoFix expected.
Proof.
  unfold issuesFor.
  intros [Hnone | existing Hf Hd | existing Hf Hc Hp Ht].
  - destruct (find (sameKey expected) existingRecords) as [r|] eqn:Hf;
      [|reflexivity].
    apply find_some in Hf as [Hin Hk]. rewrite (Hnone r Hin) in Hk.
    discriminate.
  - rewrite Hf. apply differs_true_iff in Hd. now rewrite Hd.
  - rewrite Hf.
    assert (Hd : differs existing expected = false)
      by (apply differs_false_iff; auto).
    now rewrite Hd.
Qed.

Lemma flat_map_all_nil {A B : Type} (f : A -> list B) (l : list A) :
  (forall a, In a l -> f a = []) -> flat_map f l = [].
Proof.
  induction l as [|a l IH]; cbn; intros H; [reflexivity|].
  rewrite (H a (or_introl eq_refl)), IH; auto.
Qed.

(** *** Keys of the snapshot *)

Lemma sameKey_true_iff (expected : ExpectedRecord) (r : DnsRecord) :
  sameKey expected r = true <->
  rec_name r = exp_name expected /\ rec_type r = exp_type expected.
Proof.
  unfold sameKey. now rewrite andb_true_iff, !String.eqb_eq.
Qed.

Lemma find_unique_key (existingRecords : list DnsRecord)
    (expected : ExpectedRecord) (o : DnsRecord) :
  NoDup (map keyOf existingRecords) ->
  In o existingRecords ->
  sameKey expected o = true ->
  find (sameKey expected) existingRecords = Some o.
Proof.
  intros Hnd Hin Hk.
  induction existingRecords as [|h rest IH]; [contradiction|].
  cbn in Hnd. apply NoDup_cons_iff in Hnd as [Hnotin Hnd].
  cbn. destruct Hin as [-> | Hin].
  - now rewrite Hk.
  - destruct (sameKey expected h) eqn:Hh.
    + exfalso. apply Hnotin.
      apply sameKey_true_iff in Hk as [Hn Ht], Hh as [Hn' Ht'].
      replace (keyOf h) with (keyOf o)
        by (unfold keyOf; congruence).
      now apply in_map.
    + now apply IH.
Qed.

End ReconcilerLemmas.

(** *** Claims about the reconciler *)

Section ReconcilerClaims.

Variable config : CloudFlareConfig.
Variable remote : Remote.

(** C2 (amended).  When a reconciliation returns, its issue list is the
    concatenation, in order, of one group per desired record, and each group
    is fixed by the class of its record against the listing: one [missing]
    entry when no observed record has the record's (name, type); one
    [incorrect] entry when the first observed record with that key differs in
    content, or in proxied from the desired proxied defaulted to false, or
    the desired ttl is set, is not zero and differs from the observed ttl;
    no entry otherwise.  A record has exactly one class and at most one
    entry. *)
Theorem validateAndFixDnsRecords_classification
    (expectedRecords : list ExpectedRecord) (zoneId' : option string)
    (autoFix : bool) (t t' : Trace) (r : DnsValidation) :
  validateAndFixDnsRecords config remote expectedRecords zoneId' autoFix t
  = (Ok r, t') ->
  exists (zone : string) (existingRecords : list DnsRecord)
         (per : list (list Issue)),
    remote_listDnsRecords remote zone t = Ok existingRecords
    /\ Forall2 (Classified existingRecords autoFix) expectedRecords per
    /\ issues r = concat per
    /\ (forall expected found found',
           Classified existingRecords autoFix expected found ->
           Classified existingRecords autoFix expected found' ->
           found = found')
    /\ Forall (fun found => (length found <= 1)%nat) per.
Proof.
  intros Hrun.
  apply (validateAndFixDnsRecords_inv config remote) in Hrun
    as (zone & existingRecords & _ & _ & Hlist & -> & _).
  exists zone, existingRecords,
         (map (issuesFor existingRecords autoFix) expectedRecords).
  split; [assumption|]. split; [|split; [|split]].
  - induction expectedRecords; cbn; constructor; auto.
    apply issuesFor_Classified.
  - cbn. apply flat_map_concat_map.
  - intros expected found found' H1 H2.
    apply Classified_issuesFor in H1, H2. congruence.
  - apply Forall_forall. intros found Hin.
    apply in_map_iff in Hin as (expected & <- & _).
    unfold issuesFor.
    destruct (find _ _); [destruct (differs _ _)|]; cbn; lia.
Qed.

(** C3.  When the zone resolves and the listing answers, the reconciliation
    returns, whatever the provider answers to the writes: [valid] is true
    exactly when the issue list is empty, [fixed] is true exactly when
    autoFix is on and the list is not empty, and the issue list is the
    classification of the listing taken before any write.  A provider that
    gives the same listing returns the same result. *)
Theorem validateAndFixDnsRecords_flags
    (expectedRecords : list ExpectedRecord) (zoneId' : option string)
    (autoFix : bool) (t : Trace) (zone : string)
    (existingRecords : list DnsRecord) :
  or_string zoneId' (zoneId config) = Some zone ->
  truthy_string (Some zone) = true ->
  remote_listDnsRecords remote zone t = Ok existingRecords ->
  exists (r : DnsValidation) (t' : Trace),
    validateAndFixDnsRecords config remote expectedRecords zoneId' autoFix t
    = (Ok r, t')
    /\ (valid r = true <-> issues r = [])
    /\ (fixed r = true <-> autoFix = true /\ issues r <> [])
    /\ issues r = flat_map (issuesFor existingRecords autoFix) expectedRecords
    /\ forall remote' : Remote,
         remote_listDnsRecords remote' zone t = Ok existingRecords ->
         fst (validateAndFixDnsRecords config remote' expectedRecords zoneId'
                                       autoFix t) = Ok r.
Proof.
  intros Hz Hzone Hlist.
  exists (reconciled existingRecords autoFix expectedRecords).
  eexists. split.
  - apply (validateAndFixDnsRecords_ok config remote _ _ _ _ _ _ Hz Hzone Hlist).
  - unfold reconciled. cbv [valid issues fixed].
    set (found := flat_map _ _).
    split; [|split; [|split]].
    + rewrite Nat.eqb_eq. apply length_zero_iff_nil.
    + rewrite andb_true_iff, Nat.ltb_lt.
      destruct found; cbn; split.
      * intros [_ H]. lia.
      * intros [_ H]. contradiction.
      * intros [H _]. split; [assumption | discriminate].
      * intros [H _]. split; [assumption | lia].
    + reflexivity.
    + intros remote' Hlist'.
      now rewrite (validateAndFixDnsRecords_ok config remote' _ _ _ _ _ _
                     Hz Hzone Hlist').
Qed.

(** C9.  Every issue a reconciliation returns is [missing] or [incorrect],
    never [extra]: a missing issue carries a desired record, an incorrect
    issue carries an observed record that has the key of the desired record
    it is paired with; an observed record whose key is that of no desired
    record occurs in no issue. *)
Theorem validateAndFixDnsRecords_never_extra
    (expectedRecords : list ExpectedRecord) (zoneId' : option string)
    (autoFix : bool) (t t' : Trace) (r : DnsValidation) :
  validateAndFixDnsRecords config remote expectedRecords zoneId' autoFix t
  = (Ok r, t') ->
  exists (zone : string) (existingRecords : list DnsRecord),
    remote_listDnsRecords remote zone t = Ok existingRecords
    /\ (forall i, In i (issues r) ->
          issue_type i <> extra
          /\ ((issue_type i = missing
               /\ exists expected, In expected expectedRecords
                    /\ issue_record i = inl expected)
              \/ (issue_type i = incorrect
                  /\ exists expected existing,
                       In expected expectedRecords
                       /\ In existing existingRecords
                       /\ sameKey expected existing = true
                       /\ issue_record i = inr existing
                       /\ issue_expected i = Some expected)))
    /\ (forall o, In o existingRecords ->
          (forall expected, In expected expectedRecords ->
                            sameKey expected o = false) ->
          forall i, In i (issues r) -> issue_record i <> inr o).
Proof.
  intros Hrun.
  apply (validateAndFixDnsRecords_inv config remote) in Hrun
    as (zone & existingRecords & _ & _ & Hlist & -> & _).
  exists zone, existingRecords. split; [assumption|].
  assert (Hshape : forall i,
    In i (issues (reconciled existingRecords autoFix expectedRecords)) ->
    (issue_type i = missing
     /\ exists expected, In expected expectedRecords
          /\ issue_record i = inl expected)
    \/ (issue_type i = incorrect
        /\ exists expected existing,
             In expected expectedRecords
             /\ In existing existingRecords
             /\ sameKey expected existing = true
             /\ issue_record i = inr existing
             /\ issue_expected i = Some expected)).
  { cbn. intros i Hin. apply in_flat_map in Hin as (expected & Hexp & Hin).
    unfold issuesFor in Hin.
    destruct (find (sameKey expected) existingRecords) as [existing|] eqn:Hf.
    - destruct (differs existing expected); [|contradiction].
      destruct Hin as [<- | []]. right. split; [reflexivity|].
      apply find_some in Hf as [Hin Hk].
      exists expected, existing. repeat split; assumption.
    - destruct Hin as [<- | []]. left. split; [reflexivity|].
      exists expected. split; [assumption | reflexivity]. }
  split.
  - intros i Hin. split; [|now apply Hshape].
    destruct (Hshape i Hin) as [[E _] | [E _]]; rewrite E; discriminate.
  - intros o Hino Hnokey i Hin Hrec.
    destruct (Hshape i Hin)
      as [(_ & expected & _ & E) | (_ & expected & existing & He & _ & Hk & E & _)].
    + congruence.
    + rewrite Hrec in E. inversion E; subst existing.
      rewrite (Hnokey expected He) in Hk. discriminate.
Qed.

(** C4 (amended).  If no two observed records share a (name, type) key and
    every desired record has an observed record with the same name, type and
    content, the same proxied flag (desired proxied defaulted to false) and,
    when the desired ttl is set, the same ttl, then reconciliation with
    autoFix returns an empty issue list and sends the listing request only:
    no create and no update. *)
Theorem validateAndFixDnsRecords_idempotent
    (expectedRecords : list ExpectedRecord) (zoneId' : option string)
    (t : Trace) (zone : string) (existingRecords : list DnsRecord) :
  or_string zoneId' (zoneId config) = Some zone ->
  truthy_string (Some zone) = true ->
  remote_listDnsRecords remote zone t = Ok existingRecords ->
  NoDup (map keyOf existingRecords) ->
  (forall expected, In expected expectedRecords ->
     exists o, In o existingRecords
       /\ rec_name o = exp_name expected
       /\ rec_type o = exp_type expected
       /\ rec_content o = exp_content expected
       /\ rec_proxied o = nullish (exp_proxied expected) false
       /\ (forall ttl, exp_ttl expected = Some ttl -> rec_ttl o = ttl)) ->
  validateAndFixDnsRecords config remote expectedRecords zoneId' true t
  = (Ok {| valid := true; issues := []; fixed := false |},
     t ++ [GET_dns_records zone]).
Proof.
  intros Hz Hzone Hlist Hnd Hall.
  rewrite (validateAndFixDnsRecords_ok config remote _ _ _ _ _ _ Hz Hzone Hlist).
  assert (Hnone : forall expected, In expected expectedRecords ->
            find (sameKey expected) existingRecords <> None
            /\ forall existing,
                 find (sameKey expected) existingRecords = Some existing ->
                 differs existing expected = false).
  { intros expected Hin.
    destruct (Hall expected Hin) as (o & Hino & Hn & Hty & Hc & Hp & Ht).
    assert (Hf : find (sameKey expected) existingRecords = Some o).
    { apply find_unique_key; auto. now apply sameKey_true_iff. }
    rewrite Hf. split; [discriminate|].
    intros existing E. inversion E; subst existing.
    apply differs_false_iff. repeat split; auto. }
  assert (Hi : flat_map (issuesFor existingRecords true) expectedRecords = []).
  { apply flat_map_all_nil. intros expected Hin.
    destruct (Hnone expected Hin) as [Hsome Hd]. unfold issuesFor.
    destruct (find _ _) as [existing|]; [|contradiction].
    now rewrite (Hd existing eq_refl). }
  assert (Hw : flat_map (writesFor existingRecords zone true) expectedRecords
               = []).
  { apply flat_map_all_nil. intros expected Hin.
    destruct (Hnone expected Hin) as [Hsome Hd]. unfold writesFor.
    destruct (find _ _) as [existing|]; [|contradiction].
    now rewrite (Hd existing eq_refl). }
  unfold reconciled. rewrite Hi, Hw. reflexivity.
Qed.

End ReconcilerClaims.

(** *** Concrete runs of the reconciler *)

(** C2, as stated, fails: the desired ttl is set (to 0) and differs from the
    observed ttl (300), the observed record matches on name and type, and no
    issue is recorded. *)
Lemma validateAndFixDnsRecords_ttl_zero_unflagged :
  find (sameKey desiredTtl0) [observedTtl300] = Some observedTtl300
  /\ (exists ttl : Z,
        exp_ttl desiredTtl0 = Some ttl /\ rec_ttl observedTtl300 <> ttl)
  /\ validateAndFixDnsRecords sampleConfig (dnsRemote [observedTtl300] true)
                              [desiredTtl0] None false []
     = (Ok {| valid := true; issues := []; fixed := false |},
        [GET_dns_records "zone-1"]).
Proof.
  split; [reflexivity|]. split; [|reflexivity].
  exists 0%Z. split; [reflexivity|]. cbn. discriminate.
Qed.

Lemma validateAndFixDnsRecords_classification_witness :
  validateAndFixDnsRecords sampleConfig (dnsRemote [observedOld] true)
                           [desiredA] None true []
  = (Ok {| valid := false;
           issues := [incorrectIssue true observedOld desiredA];
           fixed := true |},
     [GET_dns_records "zone-1"; PUT_dns_records "zone-1" "r1" desiredA])
  /\ exists (zone : string) (existingRecords : list DnsRecord)
            (per : list (list Issue)),
       remote_listDnsRecords (dnsRemote [observedOld] true) zone []
       = Ok existingRecords
       /\ Forall2 (Classified existingRecords true) [desiredA] per
       /\ [incorrectIssue true observedOld desiredA] = concat per
       /\ (forall expected found found',
              Classified existingRecords true expected found ->
              Classified existingRecords true expected found' ->
              found = found')
       /\ Forall (fun found => (length found <= 1)%nat) per.
Proof.
  split; [reflexivity|].
  apply (validateAndFixDnsRecords_classification
           sampleConfig (dnsRemote [observedOld] true) [desiredA] None true
           [] [GET_dns_records "zone-1"; PUT_dns_records "zone-1" "r1" desiredA]
           {| valid := false;
              issues := [incorrectIssue true observedOld desiredA];
              fixed := true |}).
  reflexivity.
Defined.

Lemma validateAndFixDnsRecords_flags_witness :
  or_string None (zoneId sampleConfig) = Some "zone-1"
  /\ truthy_string (Some "zone-1") = true
  /\ remote_listDnsRecords (dnsRemote [observedOld] false) "zone-1" []
     = Ok [observedOld]
  /\ exists (r : DnsValidation) (t' : Trace),
       validateAndFixDnsRecords sampleConfig (dnsRemote [observedOld] false)
                                [desiredA] None true [] = (Ok r, t')
       /\ (valid r = true <-> issues r = [])
       /\ (fixed r = true <-> true = true /\ issues r <> [])
       /\ issues r = flat_map (issuesFor [observedOld] true) [desiredA]
       /\ forall remote' : Remote,
            remote_listDnsRecords remote' "zone-1" [] = Ok [observedOld] ->
            fst (validateAndFixDnsRecords sampleConfig remote' [desiredA] None
                                          true []) = Ok r.
Proof.
  split; [reflexivity|]. split; [reflexivity|]. split; [reflexivity|].
  apply (validateAndFixDnsRecords_flags
           sampleConfig (dnsRemote [observedOld] false) [desiredA] None true
           [] "zone-1" [observedOld]); reflexivity.
Defined.

Lemma validateAndFixDnsRecords_never_extra_witness :
  validateAndFixDnsRecords sampleConfig
    (dnsRemote [observedTtl300; observedOld] true) [desiredA] None false []
  = (Ok {| valid := false;
           issues := [incorrectIssue false observedOld desiredA];
           fixed := false |},
     [GET_dns_records "zone-1"])
  /\ forall i, In i [incorrectIssue false observedOld desiredA] ->
               issue_type i <> extra.
Proof.
  split; [reflexivity|].
  destruct (validateAndFixDnsRecords_never_extra
              sampleConfig (dnsRemote [observedTtl300; observedOld] true)
              [desiredA] None false [] [GET_dns_records "zone-1"]
              {| valid := false;
                 issues := [incorrectIssue false observedOld desiredA];
                 fixed := false |} eq_refl)
    as (zone & existingRecords & _ & Hshape & _).
  intros i Hin. exact (proj1 (Hshape i Hin)).
Defined.

(** C4, as stated, fails: every desired record has an observed record with
    the same name, type, content, proxied flag and ttl, and the
    reconciliation still reports the second record as incorrect and sends an
    update for the first observed record. *)
Lemma validateAndFixDnsRecords_duplicate_key_update :
  (forall expected, In expected desiredRoundRobin ->
     exists o, In o observedRoundRobin
       /\ rec_name o = exp_name expected
       /\ rec_type o = exp_type expected
       /\ rec_content o = exp_content expected
       /\ Some (rec_proxied o) = exp_proxied expected
       /\ Some (rec_ttl o) = exp_ttl expected)
  /\ exists (existing : DnsRecord) (expected : ExpectedRecord),
       validateAndFixDnsRecords sampleConfig (dnsRemote observedRoundRobin true)
                                desiredRoundRobin None true []
       = (Ok {| valid := false;
                issues := [incorrectIssue true existing expected];
                fixed := true |},
          [GET_dns_records "zone-1";
           PUT_dns_records "zone-1" "r1" expected]).
Proof.
  split.
  - intros expected [<- | [<- | []]].
    + eexists; split; [left; reflexivity|]. repeat split.
    + eexists; split; [right; left; reflexivity|]. repeat split.
  - eexists; eexists. reflexivity.
Qed.

Lemma validateAndFixDnsRecords_idempotent_witness :
  or_string None (zoneId sampleConfig) = Some "zone-1"
  /\ truthy_string (Some "zone-1") = true
  /\ remote_listDnsRecords (dnsRemote [observedA] false) "zone-1" []
     = Ok [observedA]
  /\ NoDup (map keyOf [observedA])
  /\ validateAndFixDnsRecords sampleConfig (dnsRemote [observedA] false)
                              [desiredA] None true []
     = (Ok {| valid := true; issues := []; fixed := false |},
        [] ++ [GET_dns_records "zone-1"]).
Proof.
  assert (Hnd : NoDup (map keyOf [observedA])).
  { constructor; [intros []|constructor]. }
  split; [reflexivity|]. split; [reflexivity|]. split; [reflexivity|].
  split; [exact Hnd|].
  apply (validateAndFixDnsRecords_idempotent
           sampleConfig (dnsRemote [observedA] false) [desiredA] None
           [] "zone-1" [observedA]); try reflexivity; try exact Hnd.
  intros expected [<- | []]. exists observedA.
  split; [left; reflexivity|]. repeat split.
  intros ttl H. inversion H. reflexivity.
Defined.

(** ** Health check *)

Section HealthLemmas.

Variable config : CloudFlareConfig.
Variable remote : Remote.

(** A fail-soft read always settles with a value: the one read, or the
    default. *)
Lemma fail_soft_ok {A : Type} (m : M A) (d : A) (t : Trace) :
  exists (a : A) (t' : Trace),
    try_catch m (fun _ => ret d) t = (Ok a, t')
    /\ (fst (m t) = Ok a \/ (exists e, fst (m t) = Throw e) /\ a = d).
Proof.
  unfold try_catch, ret.
  destruct (m t) as [[a|e] t'] eqn:E; cbn.
  - exists a, t'. auto.
  - exists d, t'. split; [reflexivity|]. right. split; [now exists e | reflexivity].
Qed.

Lemma checkPagesHealth_ok (projectName : string) (t : Trace) :
  exists b, checkPagesHealth remote projectName t
            = (Ok b, t ++ [GET_pages_project projectName]).
Proof.
  unfold checkPagesHealth, try_catch, bind, getPagesProject, request, ret.
  destruct (remote_getPagesProject remote projectName t); eauto.
Qed.

Lemma checkWorkerHealth_ok (scriptName : string) (t : Trace) :
  exists b, checkWorkerHealth remote scriptName t
            = (Ok b, t ++ [GET_workers_script scriptName]).
Proof.
  unfold checkWorkerHealth, try_catch, bind, getWorker, request, ret.
  destruct (remote_getWorker remote scriptName t); eauto.
Qed.

(** The part of the check after the gather never throws. *)
Lemma health_probes_ok (workers : list Worker) (pages : list PagesProject)
    (certificates : list Certificate) (t : Trace) :
  exists (dnsRecords : list DnsRecord) (r : HealthCheck) (t' : Trace),
    (dnsRecords <- try_catch (listDnsRecords config remote None)
                             (fun _ => ret []) ;;
     productionFrontend <- checkPagesHealth remote "connectree" ;;
     productionApi <- checkWorkerHealth remote "connectree-api" ;;
     stagingFrontend <- checkPagesHealth remote "connectree" ;;
     stagingApi <- checkWorkerHealth remote "connectree-api-staging" ;;
     let services := buildServices workers pages dnsRecords certificates in
     ret {| hc_status := determineStatus (Object_values services);
            hc_services := services;
            hc_production :=
              {| frontend := productionFrontend; api := productionApi |};
            hc_staging :=
              {| frontend := stagingFrontend; api := stagingApi |} |}) t
    = (Ok r, t')
    /\ hc_services r = buildServices workers pages dnsRecords certificates
    /\ hc_status r = determineStatus (Object_values (hc_services r)).
Proof.
  destruct (fail_soft_ok (listDnsRecords config remote None) [] t)
    as (dnsRecords & t1 & E1 & _).
  destruct (checkPagesHealth_ok "connectree" t1) as (pf & E2).
  destruct (checkWorkerHealth_ok "connectree-api"
              (t1 ++ [GET_pages_project "connectree"])) as (pa & E3).
  destruct (checkPagesHealth_ok "connectree"
              ((t1 ++ [GET_pages_project "connectree"])
               ++ [GET_workers_script "connectree-api"])) as (sf & E4).
  destruct (checkWorkerHealth_ok "connectree-api-staging"
              (((t1 ++ [GET_pages_project "connectree"])
                ++ [GET_workers_script "connectree-api"])
               ++ [GET_pages_project "connectree"])) as (sa & E5).
  exists dnsRecords. eexists; eexists.
  unfold bind at 1. rewrite E1.
  unfold bind at 1. rewrite E2.
  unfold bind at 1. rewrite E3.
  unfold bind at 1. rewrite E4.
  unfold bind at 1. rewrite E5.
  unfold ret. split; [reflexivity|]. split; reflexivity.
Qed.

Lemma comprehensiveHealthCheck_required_ok (t : Trace)
    (workers : list Worker) (pages : list PagesProject) (zones : list Zone) :
  remote_listWorkers remote t = Ok workers ->
  remote_listPagesProjects remote (afterWorkers t) = Ok pages ->
  remote_listZones remote (afterPages t) = Ok zones ->
  exists (certificates : list Certificate) (dnsRecords : list DnsRecord)
         (r : HealthCheck) (t' : Trace),
    comprehensiveHealthCheck config remote t = (Ok r, t')
    /\ hc_services r = buildServices workers pages dnsRecords certificates
    /\ hc_status r = determineStatus (Object_values (hc_services r))
    /\ (fst (listCertificates config remote None (afterZones t))
        = Ok certificates
        \/ (exists e, fst (listCertificates config remote None (afterZones t))
                      = Throw e)
           /\ certificates = []).
Proof.
  intros Hw Hp Hz.
  destruct (fail_soft_ok (listCertificates config remote None) [] (afterZones t))
    as (certificates & t4 & E4 & Hc).
  destruct (health_probes_ok workers pages certificates t4)
    as (dnsRecords & r & t' & E & Hs & Hst).
  exists certificates, dnsRecords, r, t'.
  split; [|auto].
  unfold comprehensiveHealthCheck, try_catch at 1.
  unfold bind at 1, start at 1, listWorkers, request. rewrite Hw.
  unfold bind at 1, start at 1, listPagesProjects, request.
  fold (afterWorkers t). rewrite Hp.
  unfold bind at 1, start at 1, listZones, request.
  fold (afterPages t). rewrite Hz.
  unfold bind at 1, start at 1. fold (afterZones t). rewrite E4.
  unfold bind at 1, Promise_all4, bind at 1, await, ret. cbn iota beta.
  unfold bind at 1. cbn iota beta. unfold bind at 1. cbn iota beta.
  unfold bind at 1. cbn iota beta.
  unfold ret in E. rewrite E. reflexivity.
Qed.

Lemma comprehensiveHealthCheck_required_throw (t : Trace) :
  (exists e, remote_listWorkers remote t = Throw e)
  \/ (exists e, remote_listPagesProjects remote (afterWorkers t) = Throw e)
  \/ (exists e, remote_listZones remote (afterPages t) = Throw e) ->
  exists (e : Thrown) (t' : Trace),
    comprehensiveHealthCheck config remote t = (Throw e, t')
    /\ (remote_listWorkers remote t = Throw e
        \/ remote_listPagesProjects remote (afterWorkers t) = Throw e
        \/ remote_listZones remote (afterPages t) = Throw e).
Proof.
  intros H.
  destruct (fail_soft_ok (listCertificates config remote None) [] (afterZones t))
    as (certificates & t4 & E4 & _).
  unfold comprehensiveHealthCheck, try_catch at 1.
  unfold bind at 1, start at 1, listWorkers, request.
  unfold bind at 1, start at 1, listPagesProjects, request.
  fold (afterWorkers t).
  unfold bind at 1, start at 1, listZones, request.
  fold (afterPages t).
  unfold bind at 1, start at 1. fold (afterZones t). rewrite E4.
  unfold bind at 1, Promise_all4, await, ret, throw.
  destruct (remote_listWorkers remote t) as [ws|ew] eqn:Hw.
  - destruct (remote_listPagesProjects remote (afterWorkers t)) as [ps|ep] eqn:Hp.
    + destruct (remote_listZones remote (afterPages t)) as [zs|ez] eqn:Hz.
      * exfalso. destruct H as [[e H] | [[e H] | [e H]]]; discriminate.
      * cbn. exists ez, t4. auto.
    + cbn. exists ep, t4. auto.
  - cbn. exists ew, t4. auto.
Qed.

Lemma comprehensiveHealthCheck_inv (t t' : Trace) (r : HealthCheck) :
  comprehensiveHealthCheck config remote t = (Ok r, t') ->
  exists (workers : list Worker) (pages : list PagesProject)
         (dnsRecords : list DnsRecord) (certificates : list Certificate),
    hc_services r = buildServices workers pages dnsRecords certificates
    /\ hc_status r = determineStatus (Object_values (hc_services r)).
Proof.
  intros Hrun.
  destruct (remote_listWorkers remote t) as [ws|ew] eqn:Hw;
    [destruct (remote_listPagesProjects remote (afterWorkers t))
       as [ps|ep] eqn:Hp;
     [destruct (remote_listZones remote (afterPages t)) as [zs|ez] eqn:Hz|]|].
  - destruct (comprehensiveHealthCheck_required_ok t ws ps zs Hw Hp Hz)
      as (cs & ds & r0 & t0 & E & Hs & Hst & _).
    rewrite E in Hrun. inversion Hrun; subst.
    exists ws, ps, ds, cs. split; assumption.
  - destruct (comprehensiveHealthCheck_required_throw t) as (e & t0 & E & _);
      [right; right; eauto|]. rewrite E in Hrun. discriminate.
  - destruct (comprehensiveHealthCheck_required_throw t) as (e & t0 & E & _);
      [right; left; eauto|]. rewrite E in Hrun. discriminate.
  - destruct (comprehensiveHealthCheck_required_throw t) as (e & t0 & E & _);
      [left; eauto|]. rewrite E in Hrun. discriminate.
Qed.

End HealthLemmas.

(** *** Aggregation lemmas *)

Lemma Status_eqb_eq (a b : Status) : Status_eqb a b = true <-> a = b.
Proof. destruct a, b; cbn; split; intros H; try reflexivity; discriminate. Qed.

Lemma some_filtered_iff {A : Type} (p : A -> bool) (l : list A) :
  (0 <? length (filter p l))%nat = true <-> exists x, In x l /\ p x = true.
Proof.
  rewrite Nat.ltb_lt. split.
  - intros H. destruct (filter p l) as [|x rest] eqn:E; [cbn in H; lia|].
    exists x. apply filter_In. rewrite E. now left.
  - intros (x & Hin & Hp).
    assert (Hx : In x (filter p l)) by now apply filter_In.
    destruct (filter p l); [contradiction | cbn; lia].
Qed.

Lemma determineStatus_cases (values : list Service) :
  (has unhealthy values /\ determineStatus values = unhealthy)
  \/ (~ has unhealthy values /\ has degraded values
      /\ determineStatus values = degraded)
  \/ (~ has unhealthy values /\ ~ has degraded values
      /\ determineStatus values = healthy).
Proof.
  unfold determineStatus, has.
  destruct (0 <? length (filter (fun s => Status_eqb (svc_status s) unhealthy)
                                values))%nat eqn:Hu.
  - left. apply some_filtered_iff in Hu as (s & Hin & Hs).
    apply Status_eqb_eq in Hs. eauto.
  - right.
    assert (Hnu : ~ exists s, In s values /\ svc_status s = unhealthy).
    { intros (s & Hin & Hs).
      assert (H : (0 <? length (filter (fun s => Status_eqb (svc_status s)
                                                  unhealthy) values))%nat = true)
        by (apply some_filtered_iff; exists s; split;
            [assumption | now apply Status_eqb_eq]).
      congruence. }
    destruct (0 <? length (filter (fun s => Status_eqb (svc_status s) degraded)
                                  values))%nat eqn:Hd.
    + left. apply some_filtered_iff in Hd as (s & Hin & Hs).
      apply Status_eqb_eq in Hs. eauto.
    + right. repeat split; auto.
      intros (s & Hin & Hs).
      assert (H : (0 <? length (filter (fun s => Status_eqb (svc_status s)
                                                  degraded) values))%nat = true)
        by (apply some_filtered_iff; exists s; split;
            [assumption | now apply Status_eqb_eq]).
      congruence.
Qed.

Lemma has_Permutation (st : Status) (values values' : list Service) :
  Permutation values values' -> has st values -> has st values'.
Proof.
  intros Hp (s & Hin & Hs). exists s. split; [|assumption].
  now apply (Permutation_in _ Hp).
Qed.

(** *** Claims about the health check and the two aggregations *)

Section HealthClaims.

Variable config : CloudFlareConfig.
Variable remote : Remote.

(** C5.  The simple aggregation of any list of component results is
    [unhealthy] exactly when some component is unhealthy, [degraded] exactly
    when none is unhealthy and some component is degraded, and [healthy]
    exactly when neither occurs; the result is the same for every reordering
    of the list. *)
Theorem determineStatus_precedence (values : list Service) :
  (determineStatus values = unhealthy <-> has unhealthy values)
  /\ (determineStatus values = degraded <->
      ~ has unhealthy values /\ has degraded values)
  /\ (determineStatus values = healthy <->
      ~ has unhealthy values /\ ~ has degraded values)
  /\ forall values', Permutation values values' ->
                     determineStatus values' = determineStatus values.
Proof.
  assert (Hchar : forall l,
    (determineStatus l = unhealthy <-> has unhealthy l)
    /\ (determineStatus l = degraded <-> ~ has unhealthy l /\ has degraded l)
    /\ (determineStatus l = healthy <->
        ~ has unhealthy l /\ ~ has degraded l)).
  { intros l.
    destruct (determineStatus_cases l)
      as [(Hu & E) | [(Hnu & Hd & E) | (Hnu & Hnd & E)]];
      rewrite E; repeat split; intros; try discriminate; try tauto. }
  destruct (Hchar values) as (H1 & H2 & H3).
  split; [exact H1|]. split; [exact H2|]. split; [exact H3|].
  intros values' Hp.
  assert (Hback : forall st, has st values' -> has st values)
    by (intros st; apply has_Permutation; now apply Permutation_sym).
  assert (Hforth : forall st, has st values -> has st values')
    by (intros st; now apply has_Permutation).
  destruct (determineStatus_cases values)
    as [(Hu & E) | [(Hnu & Hd & E) | (Hnu & Hnd & E)]]; rewrite E;
    apply (Hchar values'); auto.
Qed.

(** C7.  In the health check the three required reads (compute-deployment
    list, hosting-project list, DNS zone list) are fail-hard: if any of them
    throws, the whole check throws, with the value one of them threw, and
    returns no result.  The certificate
    read is fail-soft: if the three required reads answer and the
    certificate read throws, the check returns a full result whose ssl
    component has count 0 (and status degraded). *)
Theorem comprehensiveHealthCheck_failure_policy (t : Trace) :
  ((exists e, remote_listWorkers remote t = Throw e)
   \/ (exists e, remote_listPagesProjects remote (afterWorkers t) = Throw e)
   \/ (exists e, remote_listZones remote (afterPages t) = Throw e) ->
   exists (e : Thrown) (t' : Trace),
     comprehensiveHealthCheck config remote t = (Throw e, t')
     /\ (remote_listWorkers remote t = Throw e
         \/ remote_listPagesProjects remote (afterWorkers t) = Throw e
         \/ remote_listZones remote (afterPages t) = Throw e))
  /\ (forall workers pages zones e,
        remote_listWorkers remote t = Ok workers ->
        remote_listPagesProjects remote (afterWorkers t) = Ok pages ->
        remote_listZones remote (afterPages t) = Ok zones ->
        fst (listCertificates config remote None (afterZones t)) = Throw e ->
        exists (r : HealthCheck) (t' : Trace),
          comprehensiveHealthCheck config remote t = (Ok r, t')
          /\ svc_count (svc_ssl (hc_services r)) = 0%nat
          /\ svc_status (svc_ssl (hc_services r)) = degraded
          /\ svc_count (svc_workers (hc_services r)) = length workers
          /\ svc_count (svc_pages (hc_services r)) = length pages).
Proof.
  split.
  - apply comprehensiveHealthCheck_required_throw.
  - intros workers pages zones e Hw Hp Hz Hc.
    destruct (comprehensiveHealthCheck_required_ok config remote t
                workers pages zones Hw Hp Hz)
      as (certificates & dnsRecords & r & t' & E & Hs & _ & Hcert).
    exists r, t'. split; [assumption|].
    assert (Hnil : certificates = []).
    { destruct Hcert as [Hok | [_ Hnil]]; [congruence | assumption]. }
    rewrite Hs, Hnil. cbn. auto.
Qed.

(** C10.  In every result of the health check the ssl component is healthy
    or degraded, never unhealthy, and it is degraded exactly when the
    certificate count is 0; the overall status is unhealthy exactly when the
    workers, pages or dns component is unhealthy, so with those three healthy
    the overall status is the ssl status: healthy or degraded. *)
Theorem comprehensiveHealthCheck_ssl_never_unhealthy
    (t t' : Trace) (r : HealthCheck) :
  comprehensiveHealthCheck config remote t = (Ok r, t') ->
  let services := hc_services r in
  svc_status (svc_ssl services) <> unhealthy
  /\ (svc_status (svc_ssl services) = degraded <->
      svc_count (svc_ssl services) = 0%nat)
  /\ (hc_status r = unhealthy <->
      svc_status (svc_workers services) = unhealthy
      \/ svc_status (svc_pages services) = unhealthy
      \/ svc_status (svc_dns services) = unhealthy)
  /\ (svc_status (svc_workers services) = healthy ->
      svc_status (svc_pages services) = healthy ->
      svc_status (svc_dns services) = healthy ->
      hc_status r = svc_status (svc_ssl services)
      /\ hc_status r <> unhealthy).
Proof.
  intros Hrun services. subst services.
  apply (comprehensiveHealthCheck_inv config remote) in Hrun
    as (workers & pages & dnsRecords & certificates & Hs & Hst).
  rewrite Hst, Hs. unfold buildServices, determineStatus, Object_values.
  cbn [svc_ssl svc_workers svc_pages svc_dns svc_status svc_count].
  destruct workers, pages, dnsRecords, certificates; cbn;
    repeat split; intros; try discriminate; try reflexivity; try tauto;
    try lia;
    repeat match goal with
           | H : _ \/ _ |- _ => destruct H
           end; try discriminate; auto.
Qed.

End HealthClaims.

(** ** Environment preparation *)

Section PreparationLemmas.

Variable config : CloudFlareConfig.
Variable remote : Remote.

Lemma checkPagesProject_ok (options : Options) (issues : list string)
    (t : Trace) :
  exists (pagesExists : bool) (pagesDomains extra : list string) (t' : Trace),
    checkPagesProject remote options issues t
    = (Ok (pagesExists, pagesDomains, issues ++ extra), t')
    /\ Forall isPagesIssue extra.
Proof.
  unfold checkPagesProject, try_catch at 1, bind at 1, getPagesProject, request.
  destruct (remote_getPagesProject remote expectedPages t) as [project|error].
  - exists true, (project_domains project), [], (t ++ [GET_pages_project expectedPages]).
    unfold ret. rewrite app_nil_r. split; [reflexivity | constructor].
  - destruct (truthy_bool (ensurePages options)).
    + unfold try_catch, bind, createPagesProject, request, ret.
      destruct (remote_createPagesProject remote expectedPages
                  (t ++ [GET_pages_project expectedPages])) as [p|createError].
      * exists true, [], []. eexists. rewrite app_nil_r.
        split; [reflexivity | constructor].
      * exists false, []. eexists; eexists. split; [reflexivity|].
        constructor; [|constructor]. right. now exists createError.
    + exists false, []. eexists; eexists. split; [reflexivity|].
      constructor; [|constructor]. now left.
Qed.

Lemma checkWorkers_ok (environment : Environment)
    (issues warnings : list string) (t : Trace) :
  exists (workersValid : bool) (existingWorkers issues' warnings' : list string),
    checkWorkers remote environment issues warnings t
    = (Ok (workersValid, existingWorkers, issues', warnings'),
       t ++ [GET_workers_scripts])
    /\ match remote_listWorkers remote t with
       | Ok workers =>
           let missingWorkers :=
             missingWorkersOf (expectedWorkersOf environment)
                              (map worker_name workers) in
           issues' = issues
           /\ existingWorkers = map worker_name workers
           /\ ((missingWorkers = [] /\ workersValid = true
                /\ warnings' = warnings)
               \/ (missingWorkers <> [] /\ workersValid = false
                   /\ warnings'
                      = warnings ++
                        [("Missing workers: "
                          ++ join ", " missingWorkers)%string]))
       | Throw e =>
           issues'
           = issues ++ [("Failed to check workers: " ++ errorMessage e)%string]
           /\ existingWorkers = [] /\ workersValid = false
           /\ warnings' = warnings
       end.
Proof.
  unfold checkWorkers, try_catch, bind, listWorkers, request.
  destruct (remote_listWorkers remote t) as [workers|e].
  - cbv zeta.
    destruct (missingWorkersOf (expectedWorkersOf environment)
                               (map worker_name workers)) as [|m ms] eqn:Hm.
    + cbn [length Nat.eqb]. unfold ret. do 4 eexists.
      split; [reflexivity|]. repeat split. left. repeat split.
    + cbn [length Nat.eqb]. unfold ret. do 4 eexists.
      split; [reflexivity|]. repeat split. right.
      split; [discriminate|]. split; reflexivity.
  - unfold ret. do 4 eexists. split; [reflexivity|]. repeat split.
Qed.

Lemma checkDns_ok (environment : Environment) (options : Options)
    (issues warnings : list string) (t : Trace) :
  exists (dnsValid : bool) (dnsIssues : list Issue)
         (extra extraWarnings : list string) (t' : Trace),
    checkDns config remote environment options issues warnings t
    = (Ok (dnsValid, dnsIssues, issues ++ extra, warnings ++ extraWarnings), t')
    /\ Forall isDnsIssue extra.
Proof.
  unfold checkDns.
  destruct (truthy_bool (validateDns options)).
  - unfold try_catch, bind. cbv zeta.
    destruct (validateAndFixDnsRecords config remote
                (getExpectedDnsRecords environment) None
                (truthy_bool (autoFixDns options)) t)
      as [[[dnsValid dnsIssues dnsFixed]|error] t'].
    + destruct dnsValid.
      * exists true, dnsIssues, [], [], t'. unfold ret. rewrite !app_nil_r.
        split; [reflexivity | constructor].
      * destruct (negb (truthy_bool (autoFixDns options))).
        -- exists false, dnsIssues, [],
                  [("DNS issues found (use --fix to auto-repair): " ++
                    string_of_length (length dnsIssues) ++ " issues")%string],
                  t'.
           unfold ret. rewrite app_nil_r. split; [reflexivity | constructor].
        -- exists false, dnsIssues, [], [], t'. unfold ret.
           rewrite !app_nil_r. split; [reflexivity | constructor].
    + exists false, [],
             [("DNS validation failed: " ++ errorMessage error)%string], [], t'.
      unfold ret. rewrite app_nil_r. split; [reflexivity|].
      constructor; [|constructor]. now exists error.
  - exists false, [], [], [], t. unfold ret. rewrite !app_nil_r.
    split; [reflexivity | constructor].
Qed.

End PreparationLemmas.

(** *** Claim about the environment preparation *)

Section PreparationClaims.

Variable config : CloudFlareConfig.
Variable remote : Remote.

(** C8.  The environment preparation always returns, with
    [ready = (issues.length == 0) && (validateDns ? dnsValid : true)]: the
    warnings do not enter the flag.  Every issue comes from the Pages step,
    from a failed read of the workers list, or from a failed DNS validation.
    When the workers list is read, missing workers put one entry in the
    warnings and none in the issues. *)
Theorem prepareDeploymentEnvironment_ready (environment : Environment)
    (options : Options) (t : Trace) :
  exists (r : Preparation) (t' : Trace),
    prepareDeploymentEnvironment config remote environment options t
    = (Ok r, t')
    /\ ready r
       = (length (prep_issues r) =? 0)%nat
         && (if truthy_bool (validateDns options) then dns_valid r else true)
    /\ (forall i, In i (prep_issues r) ->
          isPagesIssue i \/ isWorkersReadIssue i \/ isDnsIssue i)
    /\ forall workers,
         remote_listWorkers remote (snd (checkPagesProject remote options [] t))
         = Ok workers ->
         let missingWorkers :=
           missingWorkersOf (expectedWorkersOf environment)
                            (map worker_name workers) in
         (forall i, In i (prep_issues r) -> isPagesIssue i \/ isDnsIssue i)
         /\ (missingWorkers <> [] ->
             workers_exists r = false
             /\ In ("Missing workers: " ++ join ", " missingWorkers)%string
                   (prep_warnings r))
         /\ (missingWorkers = [] -> workers_exists r = true).
Proof.
  destruct (checkPagesProject_ok remote options [] t)
    as (pagesExists & pagesDomains & extra1 & t1 & E1 & H1).
  destruct (checkWorkers_ok remote environment ([] ++ extra1) [] t1)
    as (workersValid & existingWorkers & issues2 & warnings2 & E2 & H2).
  destruct (checkDns_ok config remote environment options issues2 warnings2
              (t1 ++ [GET_workers_scripts]))
    as (dnsValid & dnsIssues & extra3 & extraWarnings & t3 & E3 & H3).
  eexists; eexists.
  unfold prepareDeploymentEnvironment.
  unfold bind at 1. rewrite E1.
  unfold bind at 1. rewrite E2.
  unfold bind at 1. rewrite E3.
  unfold ret. split; [reflexivity|].
  cbn [ready prep_issues prep_warnings dns_valid workers_exists snd].
  split; [reflexivity|].
  rewrite Forall_forall in H1, H3.
  split.
  - intros i Hin. apply in_app_or in Hin as [Hin | Hin]; [|auto].
    destruct (remote_listWorkers remote t1) as [workers|e].
    + destruct H2 as (-> & _). cbn in Hin. auto.
    + destruct H2 as (-> & _). cbn in Hin.
      apply in_app_or in Hin as [Hin | [<- | []]]; [auto|].
      right; left. now exists e.
  - intros workers Hw. rewrite Hw in H2. cbv zeta in H2 |- *.
    destruct H2 as (-> & _ & Hmissing).
    split; [|split].
    + intros i Hin. apply in_app_or in Hin as [Hin | Hin]; cbn in Hin; auto.
    + intros Hne.
      destruct Hmissing as [(Hnil & _) | (_ & -> & ->)]; [contradiction|].
      split; [reflexivity|].
      apply in_or_app. left. apply in_or_app. right. now left.
    + intros Hnil.
      destruct Hmissing as [(_ & -> & _) | (Hne & _)];
        [reflexivity | contradiction].
Qed.

End PreparationClaims.

(** ** Strict aggregation and readiness score *)

Section InfrastructureLemmas.

Variable config : CloudFlareConfig.
Variable remote : Remote.

(** The overall verdict of [validateConnectreeInfrastructure] is
    [determineOverall] of the validities it reports. *)
Lemma validateConnectreeInfrastructure_overall (autoFix : bool)
    (t t' : Trace) (r : InfrastructureValidation) :
  validateConnectreeInfrastructure config remote autoFix t = (Ok r, t') ->
  iv_overall r
  = determineOverall (iv_dns_valid r) (length (iv_dns_issues r))
                     (iv_pages_valid r) (iv_workers_valid r) (iv_ssl_valid r).
Proof.
  unfold validateConnectreeInfrastructure.
  unfold bind at 1, start at 1.
  destruct (validateAndFixDnsRecords config remote
              expectedDnsRecords_connectree None autoFix t) as [o1 t1].
  unfold bind at 1, start at 1, listPagesProjects, request.
  unfold bind at 1, start at 1, listWorkers, request.
  unfold bind at 1, start at 1.
  destruct (fail_soft_ok (listCertificates config remote None) []
              ((t1 ++ [GET_pages_projects]) ++ [GET_workers_scripts]))
    as (certificates & t4 & E4 & _).
  rewrite E4.
  unfold bind at 1, Promise_all4, await, ret.
  destruct o1 as [dnsValidation|e1]; cbn; [|discriminate].
  destruct (remote_listPagesProjects remote t1) as [pages|e2]; cbn;
    [|discriminate].
  destruct (remote_listWorkers remote (t1 ++ [GET_pages_projects]))
    as [workers|e3]; cbn; [|discriminate].
  intros H. inversion H; subst. reflexivity.
Qed.

(** The summary of a deployment report is [summarize] of the four checks
    it reports. *)
Lemma generateDeploymentReport_summary (now : string)
    (environment : Environment) (t t' : Trace) (rep : Report) :
  generateDeploymentReport config remote now environment t = (Ok rep, t') ->
  summary rep
  = summarize (dns_valid (components_preparation rep))
              (pages_exists (components_preparation rep))
              (workers_exists (components_preparation rep))
              (Status_eqb (svc_status (components_ssl rep)) healthy).
Proof.
  unfold generateDeploymentReport, bind.
  destruct (prepareDeploymentEnvironment _ _ _ _ t) as [[prep|e] t1];
    [|discriminate].
  destruct (comprehensiveHealthCheck config remote t1) as [[hc|e] t2];
    [|discriminate].
  unfold ret. intros H. inversion H; subst. reflexivity.
Qed.

End InfrastructureLemmas.

(** *** Claims about the strict aggregation and the score *)

(** C1 (amended).  For the four validities and the DNS issue count, the
    strict aggregation is [healthy] exactly when all four validities are
    true; [degraded] exactly when DNS is invalid with at most 2 issues, or
    the certificates are invalid, whatever the other checks say; and
    [unhealthy] in every other case. *)
Theorem determineOverall_policy (dnsValid : bool) (dnsIssues : nat)
    (pagesValid workersValid sslValid : bool) :
  let overall :=
    determineOverall dnsValid dnsIssues pagesValid workersValid sslValid in
  let allValid :=
    dnsValid = true /\ pagesValid = true /\ workersValid = true
    /\ sslValid = true in
  let tolerated :=
    (dnsValid = false /\ (dnsIssues <= 2)%nat) \/ sslValid = false in
  (overall = healthy <-> allValid)
  /\ (overall = degraded <-> tolerated)
  /\ (overall = unhealthy <-> ~ allValid /\ ~ tolerated).
Proof.
  unfold determineOverall.
  destruct (Nat.leb_spec dnsIssues 2) as [Hle | Hgt];
    destruct dnsValid, pagesValid, workersValid, sslValid; cbn;
    repeat split; intros; try discriminate; try reflexivity;
    try tauto; try lia;
    repeat match goal with
           | H : _ /\ _ |- _ => destruct H
           | H : _ \/ _ |- _ => destruct H
           | H : ~ _ |- _ => exfalso; apply H; clear H
           end; try discriminate; try lia; auto.
Qed.

(** C1, as stated, fails: with all DNS records and both workers in place,
    no hosting project and no certificate, DNS is valid, so the first
    disjunct is false, and the hosting check fails, so "certificates invalid
    while the other three checks pass" is false too; the verdict is
    [degraded] all the same. *)
Lemma validateConnectreeInfrastructure_degraded_without_pages :
  exists (r : InfrastructureValidation) (t' : Trace),
    validateConnectreeInfrastructure sampleConfig remoteWithoutPages false []
    = (Ok r, t')
    /\ iv_dns_valid r = true
    /\ iv_pages_valid r = false
    /\ iv_workers_valid r = true
    /\ iv_ssl_valid r = false
    /\ iv_overall r = degraded
    /\ determineOverall true 0 false true false = degraded
    /\ ~ ((iv_dns_valid r = false /\ (length (iv_dns_issues r) <= 2)%nat)
          \/ (iv_ssl_valid r = false /\ iv_dns_valid r = true
              /\ iv_pages_valid r = true /\ iv_workers_valid r = true)).
Proof.
  eexists; eexists. split; [vm_compute; reflexivity|].
  cbn. repeat split.
  intros [[H _] | (_ & _ & H & _)]; discriminate.
Qed.

(** C6.  For every outcome of the four checks, the readiness is
    [round(passedChecks / 4 * 100)], which is 25 times the number of checks
    passed; the status is [ready] when the readiness is at least 100,
    [issues] when it is at least 75 and below 100, [failed] below 75; three
    checks passed give readiness 75 and status [issues]. *)
Theorem summarize_readiness
    (dnsValid pagesExists workersExists sslHealthy : bool) :
  let passedChecks :=
    (Z.b2z dnsValid + Z.b2z pagesExists + Z.b2z workersExists
     + Z.b2z sslHealthy)%Z in
  let s := summarize dnsValid pagesExists workersExists sslHealthy in
  readiness s
  = Math_round ((inject_Z passedChecks / inject_Z 4) * inject_Z 100)%Q
  /\ readiness s = (25 * passedChecks)%Z
  /\ (summary_status s = status_ready <-> (100 <= readiness s)%Z)
  /\ (summary_status s = status_issues <-> (75 <= readiness s < 100)%Z)
  /\ (summary_status s = status_failed <-> (readiness s < 75)%Z)
  /\ (passedChecks = 3%Z ->
      readiness s = 75%Z /\ summary_status s = status_issues).
Proof.
  destruct dnsValid, pagesExists, workersExists, sslHealthy; vm_compute;
    repeat split; intros; try discriminate; try reflexivity;
    repeat match goal with
           | H : _ /\ _ |- _ => destruct H
           | H : ?x = ?x -> False |- _ => exfalso; now apply H
           | H : Gt = Gt -> False |- _ => exfalso; now apply H
           end; try discriminate; try contradiction; auto.
Qed.

(** *** Concrete runs of the health check and of the preparation *)

Lemma comprehensiveHealthCheck_failure_policy_witness :
  (exists (e : Thrown) (t' : Trace),
      comprehensiveHealthCheck sampleConfig remotePagesDown [] = (Throw e, t')
      /\ (remote_listWorkers remotePagesDown [] = Throw e
          \/ remote_listPagesProjects remotePagesDown (afterWorkers [])
             = Throw e
          \/ remote_listZones remotePagesDown (afterPages []) = Throw e))
  /\ exists (r : HealthCheck) (t' : Trace),
       comprehensiveHealthCheck sampleConfig remoteCertificatesDown []
       = (Ok r, t')
       /\ svc_count (svc_ssl (hc_services r)) = 0%nat
       /\ svc_status (svc_ssl (hc_services r)) = degraded
       /\ svc_count (svc_workers (hc_services r)) = length connectreeWorkers
       /\ svc_count (svc_pages (hc_services r)) = length [connectreeProject].
Proof.
  split.
  - apply (proj1 (comprehensiveHealthCheck_failure_policy
                    sampleConfig remotePagesDown [])).
    right; left. exists transportError. reflexivity.
  - apply (proj2 (comprehensiveHealthCheck_failure_policy
                    sampleConfig remoteCertificatesDown [])
             connectreeWorkers [connectreeProject] [connectreeZone]
             transportError); reflexivity.
Defined.

(** Scenario C: three healthy components and no certificate aggregate to
    [degraded]. *)
Lemma comprehensiveHealthCheck_ssl_never_unhealthy_witness :
  exists (r : HealthCheck) (t' : Trace),
    comprehensiveHealthCheck sampleConfig remoteCertificatesDown [] = (Ok r, t')
    /\ svc_status (svc_ssl (hc_services r)) <> unhealthy
    /\ hc_status r = degraded.
Proof.
  eexists; eexists. split; [vm_compute; reflexivity|].
  match goal with
  | |- ?st ?r <> _ /\ _ =>
      destruct (comprehensiveHealthCheck_ssl_never_unhealthy
                  sampleConfig remoteCertificatesDown [] _ _ eq_refl)
        as (Hssl & _ & _ & Hall)
  end.
  split; [exact Hssl|].
  destruct Hall as [Heq _]; try reflexivity.
Defined.

Lemma determineStatus_precedence_witness :
  Permutation [mkService healthy 2; mkService degraded 0; mkService unhealthy 0]
              [mkService unhealthy 0; mkService healthy 2; mkService degraded 0]
  /\ determineStatus
       [mkService unhealthy 0; mkService healthy 2; mkService degraded 0]
     = determineStatus
         [mkService healthy 2; mkService degraded 0; mkService unhealthy 0].
Proof.
  assert (Hp : Permutation
                 [mkService healthy 2; mkService degraded 0;
                  mkService unhealthy 0]
                 [mkService unhealthy 0; mkService healthy 2;
                  mkService degraded 0]).
  { apply Permutation_sym.
    apply (Permutation_cons_app [mkService healthy 2; mkService degraded 0] []).
    rewrite app_nil_r. apply Permutation_refl. }
  split; [exact Hp|].
  apply (proj2 (proj2 (proj2 (determineStatus_precedence _)))). exact Hp.
Defined.

Lemma prepareDeploymentEnvironment_ready_witness :
  remote_listWorkers remoteWithoutWorkers
    (snd (checkPagesProject remoteWithoutWorkers noOptions [] []))
  = Ok []
  /\ exists (r : Preparation) (t' : Trace),
       prepareDeploymentEnvironment sampleConfig remoteWithoutWorkers
                                    production noOptions [] = (Ok r, t')
       /\ ready r = (length (prep_issues r) =? 0)%nat
       /\ workers_exists r = false
       /\ In "Missing workers: connectree-api" (prep_warnings r)
       /\ forall i, In i (prep_issues r) -> isPagesIssue i \/ isDnsIssue i.
Proof.
  split; [reflexivity|].
  destruct (prepareDeploymentEnvironment_ready
              sampleConfig remoteWithoutWorkers production noOptions [])
    as (r & t' & E & Hready & _ & Hworkers).
  exists r, t'. split; [exact E|].
  split; [rewrite Hready; apply andb_true_r|].
  destruct (Hworkers [] eq_refl) as (Hissues & Hmissing & _).
  destruct Hmissing as [Hex Hin]; [discriminate|].
  repeat split; assumption.
Defined.

(** Missing workers leave the environment ready: the warning does not enter
    the flag. *)
Example prepareDeploymentEnvironment_ready_despite_warning :
  fst (prepareDeploymentEnvironment sampleConfig remoteWithoutWorkers
                                    production noOptions [])
  = Ok {| ready := true;
          prep_issues := [];
          prep_warnings := ["Missing workers: connectree-api"];
          prep_environment := production;
          pages_exists := true;
          pages_domains := ["connectree.cc"];
          workers_exists := false;
          workers_names := [];
          dns_valid := false;
          dns_issues := [] |}.
Proof. reflexivity. Qed.

(** Scenario A: nothing observed, no autoFix. *)
Example validateAndFixDnsRecords_scenario_A :
  validateAndFixDnsRecords sampleConfig (dnsRemote [] true) [desiredA] None
                           false []
  = (Ok {| valid := false;
           issues := [{| issue_type := missing;
                         issue_record := inl desiredA;
                         issue_expected := None;
                         issue_action := "REQUIRES_CREATION" |}];
           fixed := false |},
     [GET_dns_records "zone-1"]).
Proof. reflexivity. Qed.

(** Scenario B with every write refused: the update is still sent and
    [fixed] is still true. *)
Example validateAndFixDnsRecords_scenario_B_refused :
  validateAndFixDnsRecords sampleConfig (dnsRemote [observedOld] false)
                           [desiredA] None true []
  = (Ok {| valid := false;
           issues := [{| issue_type := incorrect;
                         issue_record := inr observedOld;
                         issue_expected := Some desiredA;
                         issue_action := "UPDATE" |}];
           fixed := true |},
     [GET_dns_records "zone-1"; PUT_dns_records "zone-1" "r1" desiredA]).
Proof. reflexivity. Qed.

(** Scenario D: DNS invalid, the other three checks pass. *)
Example summarize_scenario_D :
  summarize false true true true
  = {| summary_status := status_issues; readiness := 75 |}.
Proof. reflexivity. Qed.

(** ** Further properties of the reconciler *)

Section ReconcilerMore.

Variable config : CloudFlareConfig.
Variable remote : Remote.

Lemma payload_eq (expected : ExpectedRecord) : payload expected = expected.
Proof. now destruct expected. Qed.

Lemma writesFor_fixes (existingRecords : list DnsRecord) (zone : string)
    (expectedRecords : list ExpectedRecord) :
  Forall2 (fixes zone)
          (flat_map (issuesFor existingRecords true) expectedRecords)
          (flat_map (writesFor existingRecords zone true) expectedRecords).
Proof.
  induction expectedRecords as [|expected rest IH]; cbn; [constructor|].
  unfold issuesFor at 1, writesFor at 1.
  destruct (find (sameKey expected) existingRecords) as [existing|].
  - destruct (differs existing expected); cbn; [|assumption].
    constructor; [|assumption].
    now apply fixes_update.
  - cbn. constructor; [|assumption]. now apply fixes_create.
Qed.

Lemma writesFor_off (existingRecords : list DnsRecord) (zone : string)
    (expectedRecords : list ExpectedRecord) :
  flat_map (writesFor existingRecords zone false) expectedRecords = [].
Proof. now apply flat_map_all_nil. Qed.

Lemma issuesFor_finding (existingRecords : list DnsRecord)
    (expectedRecords : list ExpectedRecord) (autoFix autoFix' : bool) :
  map finding (flat_map (issuesFor existingRecords autoFix) expectedRecords)
  = map finding (flat_map (issuesFor existingRecords autoFix') expectedRecords).
Proof.
  induction expectedRecords as [|expected rest IH]; cbn; [reflexivity|].
  rewrite !map_app, IH. f_equal.
  unfold issuesFor.
  destruct (find (sameKey expected) existingRecords) as [existing|];
    [destruct (differs existing expected)|]; reflexivity.
Qed.

Lemma issuesFor_length (existingRecords : list DnsRecord) (autoFix : bool)
    (expectedRecords : list ExpectedRecord) :
  (length (flat_map (issuesFor existingRecords autoFix) expectedRecords)
   <= length expectedRecords)%nat.
Proof.
  induction expectedRecords as [|expected rest IH]; cbn; [lia|].
  rewrite length_app. unfold issuesFor at 1.
  destruct (find (sameKey expected) existingRecords) as [existing|];
    [destruct (differs existing expected)|]; cbn; lia.
Qed.

Lemma validateAndFixDnsRecords_without_zone
    (expectedRecords : list ExpectedRecord) (zoneId' : option string)
    (autoFix : bool) (t : Trace) :
  truthy_string (or_string zoneId' (zoneId config)) = false ->
  validateAndFixDnsRecords config remote expectedRecords zoneId' autoFix t
  = (Throw (ErrorObj "Zone ID is required"), t).
Proof.
  intros Hz. unfold validateAndFixDnsRecords, bind at 1, zoneOrThrow.
  rewrite Hz. reflexivity.
Qed.

(** X1.  How a reconciliation fails.  Without a zone (neither the argument nor
    the configured zone is a non-empty string) it throws
    'Zone ID is required' and sends nothing; when the listing throws, it
    throws the same value after that one request and sends no write. *)
Theorem validateAndFixDnsRecords_errors
    (expectedRecords : list ExpectedRecord) (zoneId' : option string)
    (autoFix : bool) (t : Trace) :
  (truthy_string (or_string zoneId' (zoneId config)) = false ->
   validateAndFixDnsRecords config remote expectedRecords zoneId' autoFix t
   = (Throw (ErrorObj "Zone ID is required"), t))
  /\ (forall zone e,
        or_string zoneId' (zoneId config) = Some zone ->
        truthy_string (Some zone) = true ->
        remote_listDnsRecords remote zone t = Throw e ->
        validateAndFixDnsRecords config remote expectedRecords zoneId' autoFix t
        = (Throw e, t ++ [GET_dns_records zone])).
Proof.
  split.
  - apply validateAndFixDnsRecords_without_zone.
  - intros zone e Hz Hzone Hl.
    unfold validateAndFixDnsRecords, bind at 1.
    rewrite (zoneOrThrow_resolved config _ _ t Hz Hzone).
    unfold bind at 1, listDnsRecords, bind at 1.
    rewrite (zoneOrThrow_truthy config zone t Hzone).
    unfold request. rewrite Hl. reflexivity.
Qed.

(** X2.  The requests of a reconciliation that returns: the listing, then, with
    autoFix, exactly one write per returned issue and in the order of the
    issues (a create of the desired record for a missing issue, an update of
    the observed record's id with the desired record for an incorrect one),
    whether or not earlier writes were refused; without autoFix, nothing
    after the listing. *)
Theorem validateAndFixDnsRecords_writes
    (expectedRecords : list ExpectedRecord) (zoneId' : option string)
    (autoFix : bool) (t t' : Trace) (r : DnsValidation) :
  validateAndFixDnsRecords config remote expectedRecords zoneId' autoFix t
  = (Ok r, t') ->
  exists (zone : string) (writes : list ApiCall),
    t' = t ++ GET_dns_records zone :: writes
    /\ (autoFix = false -> writes = [])
    /\ (autoFix = true -> Forall2 (fixes zone) (issues r) writes).
Proof.
  intros Hrun.
  apply (validateAndFixDnsRecords_inv config remote) in Hrun
    as (zone & existingRecords & _ & _ & _ & -> & ->).
  exists zone. eexists. split; [reflexivity|]. split.
  - intros ->. apply writesFor_off.
  - intros ->. apply writesFor_fixes.
Qed.

(** X3.  Size and edge cases of the result: there are at most as many issues as
    desired records; with no desired record the result is valid, not fixed
    and only the listing was requested; [fixed] implies autoFix, and [valid]
    and [fixed] are never both true. *)
Theorem validateAndFixDnsRecords_bounds
    (expectedRecords : list ExpectedRecord) (zoneId' : option string)
    (autoFix : bool) (t t' : Trace) (r : DnsValidation) :
  validateAndFixDnsRecords config remote expectedRecords zoneId' autoFix t
  = (Ok r, t') ->
  (length (issues r) <= length expectedRecords)%nat
  /\ (expectedRecords = [] ->
      r = {| valid := true; issues := []; fixed := false |}
      /\ exists zone, t' = t ++ [GET_dns_records zone])
  /\ (fixed r = true -> autoFix = true /\ valid r = false).
Proof.
  intros Hrun.
  apply (validateAndFixDnsRecords_inv config remote) in Hrun
    as (zone & existingRecords & _ & _ & _ & -> & ->).
  split; [apply issuesFor_length|]. split.
  - intros ->. split; [|exists zone; reflexivity].
    unfold reconciled. cbn. now rewrite andb_false_r.
  - unfold reconciled. cbv [valid issues fixed].
    destruct (flat_map _ _); cbn.
    + rewrite andb_false_r. discriminate.
    + rewrite andb_true_r. intros ->. auto.
Qed.

(** X4.  The action of every returned issue: 'CREATE' or 'UPDATE' with autoFix,
    'REQUIRES_CREATION' or 'REQUIRES_UPDATE' without, according to the type
    of the issue; it is never empty. *)
Theorem validateAndFixDnsRecords_actions
    (expectedRecords : list ExpectedRecord) (zoneId' : option string)
    (autoFix : bool) (t t' : Trace) (r : DnsValidation) :
  validateAndFixDnsRecords config remote expectedRecords zoneId' autoFix t
  = (Ok r, t') ->
  forall i, In i (issues r) ->
    issue_action i <> ""
    /\ (issue_type i = missing ->
        issue_action i = if autoFix then "CREATE" else "REQUIRES_CREATION")
    /\ (issue_type i = incorrect ->
        issue_action i = if autoFix then "UPDATE" else "REQUIRES_UPDATE").
Proof.
  intros Hrun i Hin.
  apply (validateAndFixDnsRecords_inv config remote) in Hrun
    as (zone & existingRecords & _ & _ & _ & -> & _).
  cbn in Hin. apply in_flat_map in Hin as (expected & _ & Hin).
  unfold issuesFor in Hin.
  destruct (find (sameKey expected) existingRecords) as [existing|];
    [destruct (differs existing expected); [|contradiction]|];
    destruct Hin as [<- | []]; cbn;
    (split; [destruct autoFix; discriminate|]);
    split; intros; try discriminate; reflexivity.
Qed.

End ReconcilerMore.

(** X5.  A run without autoFix predicts the run with it: against providers that
    give the same listing, the two runs agree on [valid] and on the type,
    record and expected record of every issue, and the run with autoFix
    sends one write for each issue the other run reports. *)
Theorem validateAndFixDnsRecords_preview
    (config : CloudFlareConfig) (remote remote' : Remote)
    (expectedRecords : list ExpectedRecord) (zoneId' : option string)
    (t t1 t2 : Trace) (r1 r2 : DnsValidation) :
  (forall zone, remote_listDnsRecords remote' zone t
                = remote_listDnsRecords remote zone t) ->
  validateAndFixDnsRecords config remote expectedRecords zoneId' false t
  = (Ok r1, t1) ->
  validateAndFixDnsRecords config remote' expectedRecords zoneId' true t
  = (Ok r2, t2) ->
  valid r2 = valid r1
  /\ map finding (issues r2) = map finding (issues r1)
  /\ exists zone writes,
       t2 = t ++ GET_dns_records zone :: writes
       /\ Forall2 (fun i w => exists i', finding i' = finding i
                                         /\ fixes zone i' w)
                  (issues r1) writes.
Proof.
  intros Hsame H1 H2.
  apply validateAndFixDnsRecords_inv in H1
    as (zone & existingRecords & Hz & _ & Hl & -> & _).
  apply validateAndFixDnsRecords_inv in H2
    as (zone' & existingRecords' & Hz' & _ & Hl' & -> & ->).
  assert (zone' = zone) by congruence. subst zone'.
  rewrite Hsame, Hl in Hl'. inversion Hl'; subst existingRecords'.
  pose proof (issuesFor_finding existingRecords expectedRecords true false)
    as Hf.
  split; [|split].
  - unfold reconciled. cbv [valid].
    rewrite <- (length_map finding), Hf, length_map. reflexivity.
  - exact Hf.
  - exists zone. eexists. split; [reflexivity|].
    cbn [issues reconciled].
    induction expectedRecords as [|expected rest IH]; cbn; [constructor|].
    unfold issuesFor at 1, writesFor at 1.
    assert (Hrest :
      map finding (flat_map (issuesFor existingRecords true) rest)
      = map finding (flat_map (issuesFor existingRecords false) rest))
      by apply issuesFor_finding.
    destruct (find (sameKey expected) existingRecords) as [existing|].
    + destruct (differs existing expected); cbn; [|now apply IH].
      constructor; [|now apply IH].
      exists (incorrectIssue true existing expected).
      split; [reflexivity | now apply fixes_update].
    + cbn. constructor; [|now apply IH].
      exists (missingIssue true expected).
      split; [reflexivity | now apply fixes_create].
Qed.

(** ** Bulk creation *)

Section BulkCreate.

Variable config : CloudFlareConfig.
Variable remote : Remote.



End BulkCreate.

(** ** Which requests a method can send *)

Section OnlySends.

Variable P : ApiCall -> bool.

Lemma onlySends_ret {A : Type} (a : A) : onlySends P (ret a).
Proof. intros t. exists []. cbn. now rewrite app_nil_r. Qed.

Lemma onlySends_throw {A : Type} (e : Thrown) : onlySends P (@throw A e).
Proof. intros t. exists []. cbn. now rewrite app_nil_r. Qed.

Lemma onlySends_await {A : Type} (p : Outcome A) : onlySends P (await p).
Proof. intros t. exists []. cbn. now rewrite app_nil_r. Qed.

Lemma onlySends_request {A : Type} (c : ApiCall)
    (answer : Trace -> Outcome A) :
  P c = true -> onlySends P (request c answer).
Proof. intros Hc t. exists [c]. cbn. now rewrite Hc. Qed.

Lemma onlySends_bind {A B : Type} (m : M A) (k : A -> M B) :
  onlySends P m -> (forall a, onlySends P (k a)) -> onlySends P (bind m k).
Proof.
  intros Hm Hk t. unfold bind.
  destruct (Hm t) as (added & E & Hadded).
  destruct (m t) as [[a|e] t1]; cbn in E; subst t1.
  - destruct (Hk a (t ++ added)) as (added' & E' & Hadded').
    exists (added ++ added'). rewrite E', app_assoc.
    split; [reflexivity|]. rewrite forallb_app, Hadded, Hadded'. reflexivity.
  - exists added. auto.
Qed.

Lemma onlySends_try_catch {A : Type} (m : M A) (h : Thrown -> M A) :
  onlySends P m -> (forall e, onlySends P (h e)) ->
  onlySends P (try_catch m h).
Proof.
  intros Hm Hh t. unfold try_catch.
  destruct (Hm t) as (added & E & Hadded).
  destruct (m t) as [[a|e] t1]; cbn in E; subst t1.
  - exists added. auto.
  - destruct (Hh e (t ++ added)) as (added' & E' & Hadded').
    exists (added ++ added'). rewrite E', app_assoc.
    split; [reflexivity|]. rewrite forallb_app, Hadded, Hadded'. reflexivity.
Qed.

Lemma onlySends_start {A : Type} (m : M A) :
  onlySends P m -> onlySends P (start m).
Proof.
  intros Hm t. unfold start.
  destruct (Hm t) as (added & E & Hadded).
  destruct (m t) as [o t1]; cbn in E |- *. eauto.
Qed.

Lemma onlySends_Promise_all4 {A B C D : Type}
    (p1 : Outcome A) (p2 : Outcome B) (p3 : Outcome C) (p4 : Outcome D) :
  onlySends P (Promise_all4 p1 p2 p3 p4).
Proof.
  unfold Promise_all4.
  repeat (apply onlySends_bind; [apply onlySends_await | intros ?]).
  apply onlySends_ret.
Qed.

End OnlySends.

Lemma onlySends_weaken {A : Type} (P Q : ApiCall -> bool) (m : M A) :
  (forall c, P c = true -> Q c = true) -> onlySends P m -> onlySends Q m.
Proof.
  intros HPQ Hm t. destruct (Hm t) as (added & E & Hadded).
  exists added. split; [assumption|].
  rewrite forallb_forall in Hadded |- *. auto.
Qed.

Section RequestsSent.

Variable config : CloudFlareConfig.
Variable remote : Remote.
Variable P : ApiCall -> bool.

Hypothesis reads_allowed : forall c, isWrite c = false -> P c = true.

Lemma onlySends_zoneOrThrow (zoneId' : option string) :
  onlySends P (zoneOrThrow config zoneId').
Proof.
  unfold zoneOrThrow.
  destruct (negb (truthy_string (or_string zoneId' (zoneId config))));
    [apply onlySends_throw|].
  destruct (or_string zoneId' (zoneId config));
    [apply onlySends_ret | apply onlySends_throw].
Qed.

Lemma onlySends_listDnsRecords (zoneId' : option string) :
  onlySends P (listDnsRecords config remote zoneId').
Proof.
  apply onlySends_bind; [apply onlySends_zoneOrThrow | intros zone].
  apply onlySends_request. now apply reads_allowed.
Qed.

Lemma onlySends_listCertificates (zoneId' : option string) :
  onlySends P (listCertificates config remote zoneId').
Proof.
  apply onlySends_bind; [apply onlySends_zoneOrThrow | intros zone].
  apply onlySends_request. now apply reads_allowed.
Qed.

Lemma onlySends_checkRecords (existingRecords : list DnsRecord)
    (zone : string) (autoFix : bool) (expectedRecords : list ExpectedRecord) :
  (autoFix = true ->
   forall c, match c with
             | POST_dns_records _ _ | PUT_dns_records _ _ _ => P c = true
             | _ => True
             end) ->
  forall issues,
    onlySends P (checkRecords config remote existingRecords zone autoFix
                              expectedRecords issues).
Proof.
  intros Hfix.
  induction expectedRecords as [|expected rest IH]; intros issues;
    cbn [checkRecords]; [apply onlySends_ret|].
  destruct (find (sameKey expected) existingRecords) as [existing|].
  - destruct (differs existing expected); [|apply IH].
    apply onlySends_bind; [|intros _; apply IH].
    destruct autoFix; [|apply onlySends_ret].
    apply onlySends_try_catch; [|intros _; apply onlySends_ret].
    apply onlySends_bind; [|intros _; apply onlySends_ret].
    apply onlySends_bind; [apply onlySends_zoneOrThrow | intros z].
    apply onlySends_request.
    apply (Hfix eq_refl (PUT_dns_records z (rec_id existing) (payload expected))).
  - apply onlySends_bind; [|intros _; apply IH].
    destruct autoFix; [|apply onlySends_ret].
    apply onlySends_try_catch; [|intros _; apply onlySends_ret].
    apply onlySends_bind; [|intros _; apply onlySends_ret].
    apply onlySends_bind; [apply onlySends_zoneOrThrow | intros z].
    apply onlySends_request.
    apply (Hfix eq_refl (POST_dns_records z (payload expected))).
Qed.

Lemma onlySends_validateAndFixDnsRecords
    (expectedRecords : list ExpectedRecord) (zoneId' : option string)
    (autoFix : bool) :
  (autoFix = true ->
   forall c, match c with
             | POST_dns_records _ _ | PUT_dns_records _ _ _ => P c = true
             | _ => True
             end) ->
  onlySends P (validateAndFixDnsRecords config remote expectedRecords zoneId'
                                        autoFix).
Proof.
  intros Hfix. unfold validateAndFixDnsRecords.
  apply onlySends_bind; [apply onlySends_zoneOrThrow | intros zone].
  apply onlySends_bind; [apply onlySends_listDnsRecords | intros existing].
  apply onlySends_bind; [now apply onlySends_checkRecords | intros issues].
  apply onlySends_ret.
Qed.

Lemma onlySends_checkPagesHealth (projectName : string) :
  onlySends P (checkPagesHealth remote projectName).
Proof.
  apply onlySends_try_catch; [|intros _; apply onlySends_ret].
  apply onlySends_bind; [|intros _; apply onlySends_ret].
  apply onlySends_request. now apply reads_allowed.
Qed.

Lemma onlySends_checkWorkerHealth (scriptName : string) :
  onlySends P (checkWorkerHealth remote scriptName).
Proof.
  apply onlySends_try_catch; [|intros _; apply onlySends_ret].
  apply onlySends_bind; [|intros _; apply onlySends_ret].
  apply onlySends_request. now apply reads_allowed.
Qed.

Lemma onlySends_comprehensiveHealthCheck :
  onlySends P (comprehensiveHealthCheck config remote).
Proof.
  unfold comprehensiveHealthCheck.
  apply onlySends_try_catch; [|intros e; apply onlySends_throw].
  apply onlySends_bind;
    [apply onlySends_start, onlySends_request; now apply reads_allowed
    |intros p1].
  apply onlySends_bind;
    [apply onlySends_start, onlySends_request; now apply reads_allowed
    |intros p2].
  apply onlySends_bind;
    [apply onlySends_start, onlySends_request; now apply reads_allowed
    |intros p3].
  apply onlySends_bind; [|intros p4].
  { apply onlySends_start, onlySends_try_catch;
      [apply onlySends_listCertificates | intros _; apply onlySends_ret]. }
  apply onlySends_bind; [apply onlySends_Promise_all4 | intros all].
  destruct all as [[[workers pages] zones] certificates].
  apply onlySends_bind; [|intros dnsRecords].
  { apply onlySends_try_catch;
      [apply onlySends_listDnsRecords | intros _; apply onlySends_ret]. }
  apply onlySends_bind; [apply onlySends_checkPagesHealth | intros pf].
  apply onlySends_bind; [apply onlySends_checkWorkerHealth | intros pa].
  apply onlySends_bind; [apply onlySends_checkPagesHealth | intros sf].
  apply onlySends_bind; [apply onlySends_checkWorkerHealth | intros sa].
  apply onlySends_ret.
Qed.

Lemma onlySends_validateConnectreeInfrastructure (autoFix : bool) :
  (autoFix = true ->
   forall c, match c with
             | POST_dns_records _ _ | PUT_dns_records _ _ _ => P c = true
             | _ => True
             end) ->
  onlySends P (validateConnectreeInfrastructure config remote autoFix).
Proof.
  intros Hfix. unfold validateConnectreeInfrastructure.
  apply onlySends_bind;
    [apply onlySends_start; now apply onlySends_validateAndFixDnsRecords
    |intros p1].
  apply onlySends_bind;
    [apply onlySends_start, onlySends_request; now apply reads_allowed
    |intros p2].
  apply onlySends_bind;
    [apply onlySends_start, onlySends_request; now apply reads_allowed
    |intros p3].
  apply onlySends_bind; [|intros p4].
  { apply onlySends_start, onlySends_try_catch;
      [apply onlySends_listCertificates | intros _; apply onlySends_ret]. }
  apply onlySends_bind; [apply onlySends_Promise_all4 | intros all].
  destruct all as [[[dnsValidation pages] workers] certificates].
  apply onlySends_ret.
Qed.

Lemma onlySends_prepareDeploymentEnvironment (environment : Environment)
    (options : Options) :
  (truthy_bool (ensurePages options) = true ->
   forall name, P (POST_pages_projects name) = true) ->
  (truthy_bool (validateDns options) = true ->
   truthy_bool (autoFixDns options) = true ->
   forall c, match c with
             | POST_dns_records _ _ | PUT_dns_records _ _ _ => P c = true
             | _ => True
             end) ->
  onlySends P (prepareDeploymentEnvironment config remote environment options).
Proof.
  intros Hpages Hdns. unfold prepareDeploymentEnvironment.
  apply onlySends_bind; [|intros [[pagesExists pagesDomains] issues]].
  { unfold checkPagesProject.
    apply onlySends_try_catch.
    - apply onlySends_bind; [|intros project; apply onlySends_ret].
      apply onlySends_request. now apply reads_allowed.
    - intros error.
      destruct (truthy_bool (ensurePages options)) eqn:He;
        [|apply onlySends_ret].
      apply onlySends_try_catch; [|intros e; apply onlySends_ret].
      apply onlySends_bind; [|intros p; apply onlySends_ret].
      apply onlySends_request. now apply Hpages. }
  apply onlySends_bind;
    [|intros [[[workersValid existingWorkers] issues'] warnings]].
  { unfold checkWorkers.
    apply onlySends_try_catch; [|intros e; apply onlySends_ret].
    apply onlySends_bind;
      [apply onlySends_request; now apply reads_allowed | intros workers].
    cbv zeta.
    destruct (length _ =? 0)%nat; apply onlySends_ret. }
  apply onlySends_bind;
    [|intros [[[dnsValid dnsIssues] issues''] warnings']; apply onlySends_ret].
  unfold checkDns.
  destruct (truthy_bool (validateDns options)) eqn:Hv; [|apply onlySends_ret].
  apply onlySends_try_catch; [|intros e; apply onlySends_ret].
  cbv zeta.
  apply onlySends_bind;
    [apply onlySends_validateAndFixDnsRecords; intros Hfix; now apply Hdns|].
  intros [dnsValid dnsIssues dnsFixed].
  destruct dnsValid; [apply onlySends_ret|].
  destruct (negb (truthy_bool (autoFixDns options))); apply onlySends_ret.
Qed.

End RequestsSent.

Lemma forallb_Forall_true {A : Type} (P : A -> bool) (l : list A) :
  forallb P l = true -> Forall (fun a => P a = true) l.
Proof. intros H. apply Forall_forall. now apply forallb_forall. Qed.

Lemma forallb_not_write (l : list ApiCall) :
  forallb (fun c => negb (isWrite c)) l = true ->
  Forall (fun c => isWrite c = false) l.
Proof.
  intros H. apply Forall_forall. intros c Hin.
  rewrite forallb_forall in H. apply negb_true_iff. now apply H.
Qed.

(** X7.  The health check is read-only: whatever the provider answers, and
    whether the check returns or throws, every request it sends is a read
    (no create of a Pages project, no create or update of a DNS record). *)
Theorem comprehensiveHealthCheck_read_only
    (config : CloudFlareConfig) (remote : Remote) (t : Trace) :
  exists added : list ApiCall,
    snd (comprehensiveHealthCheck config remote t) = t ++ added
    /\ Forall (fun c => isWrite c = false) added.
Proof.
  destruct (onlySends_comprehensiveHealthCheck config remote
              (fun c => negb (isWrite c))
              (fun c H => proj2 (negb_true_iff _) H) t)
    as (added & E & H).
  exists added. split; [assumption | now apply forallb_not_write].
Qed.

(** X8.  The deployment report is read-only too: it runs the preparation with
    autoFixDns and ensurePages off and then the health check, and every
    request it sends is a read, for every environment and every provider. *)
Theorem generateDeploymentReport_read_only
    (config : CloudFlareConfig) (remote : Remote) (now : string)
    (environment : Environment) (t : Trace) :
  exists added : list ApiCall,
    snd (generateDeploymentReport config remote now environment t) = t ++ added
    /\ Forall (fun c => isWrite c = false) added.
Proof.
  assert (H : onlySends (fun c => negb (isWrite c))
                (generateDeploymentReport config remote now environment)).
  { unfold generateDeploymentReport.
    apply onlySends_bind; [|intros prep].
    - apply onlySends_prepareDeploymentEnvironment.
      + intros c Hc. now apply negb_true_iff.
      + cbn. discriminate.
      + cbn. discriminate.
    - apply onlySends_bind; [|intros hc; apply onlySends_ret].
      apply onlySends_comprehensiveHealthCheck.
      intros c Hc. now apply negb_true_iff. }
  destruct (H t) as (added & E & Hadded).
  exists added. split; [assumption | now apply forallb_not_write].
Qed.

(** X9.  What the environment preparation may write: it requests the creation
    of a Pages project only when ensurePages is set, and a create or update
    of a DNS record only when validateDns and autoFixDns are both set;
    everything else it sends is a read. *)
Theorem prepareDeploymentEnvironment_writes_allowed
    (config : CloudFlareConfig) (remote : Remote)
    (environment : Environment) (options : Options) (t : Trace) :
  exists added : list ApiCall,
    snd (prepareDeploymentEnvironment config remote environment options t)
    = t ++ added
    /\ Forall (fun c => allowedBy options c = true) added
    /\ (truthy_bool (ensurePages options) = false ->
        forall name, ~ In (POST_pages_projects name) added)
    /\ (truthy_bool (validateDns options) && truthy_bool (autoFixDns options)
        = false ->
        forall zone record recordId,
          ~ In (POST_dns_records zone record) added
          /\ ~ In (PUT_dns_records zone recordId record) added).
Proof.
  destruct (onlySends_prepareDeploymentEnvironment config remote
              (allowedBy options)) with (environment := environment)
              (options := options) (t := t) as (added & E & H).
  - intros c Hc. destruct c; cbn in Hc |- *; try reflexivity; discriminate.
  - intros He name. exact He.
  - intros Hv Ha c. destruct c; cbn; auto; now rewrite Hv, Ha.
  - exists added. split; [assumption|].
    apply forallb_Forall_true in H. split; [assumption|].
    rewrite Forall_forall in H. split.
    + intros He name Hin. apply H in Hin. cbn in Hin. congruence.
    + intros Hoff zone record recordId. split; intros Hin;
        apply H in Hin; cbn in Hin; congruence.
Qed.

(** X10.  What the infrastructure validation may write: it never requests the
    creation of a Pages project, and it requests a create or update of a DNS
    record only when autoFix is on; without autoFix every request is a
    read. *)
Theorem validateConnectreeInfrastructure_writes_allowed
    (config : CloudFlareConfig) (remote : Remote) (autoFix : bool)
    (t : Trace) :
  exists added : list ApiCall,
    snd (validateConnectreeInfrastructure config remote autoFix t) = t ++ added
    /\ Forall (fun c => allowedByFix autoFix c = true) added
    /\ (autoFix = false -> Forall (fun c => isWrite c = false) added).
Proof.
  destruct (onlySends_validateConnectreeInfrastructure config remote
              (allowedByFix autoFix)) with (autoFix := autoFix) (t := t)
    as (added & E & H).
  - intros c Hc. destruct c; cbn in Hc |- *; try reflexivity; discriminate.
  - intros -> c. destruct c; cbn; auto.
  - exists added. split; [assumption|].
    apply forallb_Forall_true in H. split; [assumption|].
    intros ->. rewrite Forall_forall in H |- *.
    intros c Hin. apply H in Hin. destruct c; cbn in Hin |- *;
      try reflexivity; discriminate.
Qed.

(** ** Further properties of the health check *)

Section HealthMore.

Variable config : CloudFlareConfig.
Variable remote : Remote.

Lemma health_probes_spec (workers : list Worker) (pages : list PagesProject)
    (certificates : list Certificate) (t : Trace) :
  exists (dnsRecords : list DnsRecord) (t1 : Trace) (r : HealthCheck),
    try_catch (listDnsRecords config remote None) (fun _ => ret []) t
    = (Ok dnsRecords, t1)
    /\ (dnsRecords <- try_catch (listDnsRecords config remote None)
                                (fun _ => ret []) ;;
        productionFrontend <- checkPagesHealth remote "connectree" ;;
        productionApi <- checkWorkerHealth remote "connectree-api" ;;
        stagingFrontend <- checkPagesHealth remote "connectree" ;;
        stagingApi <- checkWorkerHealth remote "connectree-api-staging" ;;
        let services := buildServices workers pages dnsRecords certificates in
        ret {| hc_status := determineStatus (Object_values services);
               hc_services := services;
               hc_production :=
                 {| frontend := productionFrontend; api := productionApi |};
               hc_staging :=
                 {| frontend := stagingFrontend; api := stagingApi |} |}) t
       = (Ok r, t1 ++ environmentProbes)
    /\ hc_services r = buildServices workers pages dnsRecords certificates
    /\ hc_status r = determineStatus (Object_values (hc_services r)).
Proof.
  destruct (fail_soft_ok (listDnsRecords config remote None) [] t)
    as (dnsRecords & t1 & E1 & _).
  destruct (checkPagesHealth_ok remote "connectree" t1) as (pf & E2).
  destruct (checkWorkerHealth_ok remote "connectree-api"
              (t1 ++ [GET_pages_project "connectree"])) as (pa & E3).
  destruct (checkPagesHealth_ok remote "connectree"
              ((t1 ++ [GET_pages_project "connectree"])
               ++ [GET_workers_script "connectree-api"])) as (sf & E4).
  destruct (checkWorkerHealth_ok remote "connectree-api-staging"
              (((t1 ++ [GET_pages_project "connectree"])
                ++ [GET_workers_script "connectree-api"])
               ++ [GET_pages_project "connectree"])) as (sa & E5).
  exists dnsRecords, t1. eexists. split; [exact E1|].
  unfold bind at 1. rewrite E1.
  unfold bind at 1. rewrite E2.
  unfold bind at 1. rewrite E3.
  unfold bind at 1. rewrite E4.
  unfold bind at 1. rewrite E5.
  unfold ret, environmentProbes. rewrite <- !app_assoc. cbn [app].
  split; [reflexivity|]. split; reflexivity.
Qed.

Lemma comprehensiveHealthCheck_inv_full (t t' : Trace) (r : HealthCheck) :
  comprehensiveHealthCheck config remote t = (Ok r, t') ->
  exists (workers : list Worker) (pages : list PagesProject)
         (zones : list Zone) (certificates : list Certificate)
         (dnsRecords : list DnsRecord) (t5 : Trace),
    remote_listWorkers remote t = Ok workers
    /\ remote_listPagesProjects remote (afterWorkers t) = Ok pages
    /\ remote_listZones remote (afterPages t) = Ok zones
    /\ fst (try_catch (listCertificates config remote None) (fun _ => ret [])
                      (afterZones t)) = Ok certificates
    /\ try_catch (listDnsRecords config remote None) (fun _ => ret [])
                 (afterCertificates config remote t) = (Ok dnsRecords, t5)
    /\ hc_services r = buildServices workers pages dnsRecords certificates
    /\ hc_status r = determineStatus (Object_values (hc_services r))
    /\ t' = t5 ++ environmentProbes.
Proof.
  intros Hrun.
  destruct (remote_listWorkers remote t) as [ws|ew] eqn:Hw;
    [destruct (remote_listPagesProjects remote (afterWorkers t))
       as [ps|ep] eqn:Hp;
     [destruct (remote_listZones remote (afterPages t)) as [zs|ez] eqn:Hz|]|].
  - destruct (fail_soft_ok (listCertificates config remote None) []
                (afterZones t)) as (certificates & t4 & E4 & _).
    destruct (health_probes_spec ws ps certificates t4)
      as (dnsRecords & t5 & r0 & E5 & E & Hs & Hst).
    assert (Ht4 : afterCertificates config remote t = t4)
      by (unfold afterCertificates; now rewrite E4).
    assert (Hrun' : comprehensiveHealthCheck config remote t
                    = (Ok r0, t5 ++ environmentProbes)).
    { unfold comprehensiveHealthCheck, try_catch at 1.
      unfold bind at 1, start at 1, listWorkers, request. rewrite Hw.
      unfold bind at 1, start at 1, listPagesProjects, request.
      fold (afterWorkers t). rewrite Hp.
      unfold bind at 1, start at 1, listZones, request.
      fold (afterPages t). rewrite Hz.
      unfold bind at 1, start at 1. fold (afterZones t). rewrite E4.
      unfold bind at 1, Promise_all4, bind at 1, await, ret. cbn iota beta.
      unfold bind at 1. cbn iota beta. unfold bind at 1. cbn iota beta.
      unfold bind at 1. cbn iota beta.
      unfold ret in E. rewrite E. reflexivity. }
    rewrite Hrun' in Hrun. inversion Hrun; subst r0 t'.
    exists ws, ps, zs, certificates, dnsRecords, t5.
    rewrite E4, Ht4. repeat split; auto.
  - destruct (comprehensiveHealthCheck_required_throw config remote t)
      as (e & t0 & E & _); [right; right; eauto|].
    rewrite E in Hrun. discriminate.
  - destruct (comprehensiveHealthCheck_required_throw config remote t)
      as (e & t0 & E & _); [right; left; eauto|].
    rewrite E in Hrun. discriminate.
  - destruct (comprehensiveHealthCheck_required_throw config remote t)
      as (e & t0 & E & _); [left; eauto|].
    rewrite E in Hrun. discriminate.
Qed.



(** X11.  The verdict of the health check in terms of the four counts it
    reports: it is healthy exactly when all four counts are positive,
    degraded exactly when only the certificate count is zero, and unhealthy
    exactly when the workers, pages or dns count is zero; each of those
    three components is unhealthy exactly when its own count is zero. *)
Theorem comprehensiveHealthCheck_counts (t t' : Trace) (r : HealthCheck) :
  comprehensiveHealthCheck config remote t = (Ok r, t') ->
  let workers := svc_count (svc_workers (hc_services r)) in
  let pages := svc_count (svc_pages (hc_services r)) in
  let dns := svc_count (svc_dns (hc_services r)) in
  let ssl := svc_count (svc_ssl (hc_services r)) in
  (hc_status r = healthy <->
   (0 < workers /\ 0 < pages /\ 0 < dns /\ 0 < ssl)%nat)
  /\ (hc_status r = degraded <->
      (0 < workers /\ 0 < pages /\ 0 < dns)%nat /\ ssl = 0%nat)
  /\ (hc_status r = unhealthy <->
      workers = 0%nat \/ pages = 0%nat \/ dns = 0%nat)
  /\ (svc_status (svc_workers (hc_services r)) = unhealthy <-> workers = 0%nat)
  /\ (svc_status (svc_pages (hc_services r)) = unhealthy <-> pages = 0%nat)
  /\ (svc_status (svc_dns (hc_services r)) = unhealthy <-> dns = 0%nat).
Proof.
  intros Hrun.
  apply (comprehensiveHealthCheck_inv config remote) in Hrun
    as (workers & pages & dnsRecords & certificates & Hs & Hst).
  rewrite Hst, Hs. unfold buildServices, determineStatus, Object_values.
  cbn [svc_ssl svc_workers svc_pages svc_dns svc_status svc_count].
  destruct workers, pages, dnsRecords, certificates; cbn;
    repeat split; intros; try discriminate; try reflexivity; try lia;
    repeat match goal with
           | H : _ /\ _ |- _ => destruct H
           | H : _ \/ _ |- _ => destruct H
           end; try discriminate; try lia; auto.
Qed.

(** X12.  The DNS record read of the health check is fail-soft but fatal to the
    verdict: when the three required reads answer and the DNS record read
    throws, the check still returns, with a dns component of 0 records and
    status unhealthy, and the overall status is unhealthy. *)
Theorem comprehensiveHealthCheck_dns_read_fails (t : Trace)
    (workers : list Worker) (pages : list PagesProject) (zones : list Zone)
    (e : Thrown) :
  remote_listWorkers remote t = Ok workers ->
  remote_listPagesProjects remote (afterWorkers t) = Ok pages ->
  remote_listZones remote (afterPages t) = Ok zones ->
  fst (listDnsRecords config remote None (afterCertificates config remote t))
  = Throw e ->
  exists (r : HealthCheck) (t' : Trace),
    comprehensiveHealthCheck config remote t = (Ok r, t')
    /\ svc_count (svc_dns (hc_services r)) = 0%nat
    /\ svc_status (svc_dns (hc_services r)) = unhealthy
    /\ hc_status r = unhealthy.
Proof.
  intros Hw Hp Hz Hd.
  destruct (comprehensiveHealthCheck_required_ok config remote t
              workers pages zones Hw Hp Hz)
    as (certificates & dnsRecords & r & t' & E & _).
  exists r, t'. split; [exact E|].
  destruct (comprehensiveHealthCheck_inv_full t t' r E)
    as (ws & ps & zs & cs & ds & t5 & _ & _ & _ & _ & Hdns & Hs & Hst & _).
  assert (Hnil : ds = []).
  { revert Hdns. unfold try_catch.
    destruct (listDnsRecords config remote None
                (afterCertificates config remote t)) as [[d|e'] t6];
      cbn in Hd; [discriminate|].
    unfold ret. intros H. now inversion H. }
  rewrite Hst, Hs, Hnil. unfold buildServices, determineStatus, Object_values.
  cbn [svc_ssl svc_workers svc_pages svc_dns svc_status svc_count].
  destruct ws, ps, cs; cbn; auto.
Qed.


End HealthMore.

(** ** Further properties of the infrastructure validation *)

Lemma includes_In (l : list string) (s : string) :
  includes l s = true <-> In s l.
Proof.
  unfold includes. rewrite existsb_exists. split.
  - intros (x & Hin & Hx). apply String.eqb_eq in Hx. now subst.
  - intros Hin. exists s. split; [assumption | apply String.eqb_refl].
Qed.

Section InfrastructureMore.

Variable config : CloudFlareConfig.
Variable remote : Remote.

Lemma validateAndFixDnsRecords_valid_iff
    (expectedRecords : list ExpectedRecord) (zoneId' : option string)
    (autoFix : bool) (t t' : Trace) (r : DnsValidation) :
  validateAndFixDnsRecords config remote expectedRecords zoneId' autoFix t
  = (Ok r, t') ->
  (valid r = true <-> issues r = [])
  /\ (length (issues r) <= length expectedRecords)%nat.
Proof.
  intros Hrun.
  apply (validateAndFixDnsRecords_inv config remote) in Hrun
    as (zone & existingRecords & _ & _ & _ & -> & _).
  split; [|apply issuesFor_length].
  cbn. rewrite Nat.eqb_eq. apply length_zero_iff_nil.
Qed.

Lemma validateConnectreeInfrastructure_run (autoFix : bool) (t : Trace) :
  exists (certificates : list Certificate) (t4 : Trace),
    validateConnectreeInfrastructure config remote autoFix t
    = let (o1, t1) :=
        validateAndFixDnsRecords config remote expectedDnsRecords_connectree
                                 None autoFix t in
      match o1, remote_listPagesProjects remote t1,
            remote_listWorkers remote (t1 ++ [GET_pages_projects]) with
      | Ok dnsValidation, Ok pages, Ok workers =>
          let connectreeProject :=
            find (fun p => project_name p =? "connectree") pages in
          let pagesValid :=
            match connectreeProject with
            | Some p => (0 <? length (project_domains p))%nat
            | None => false
            end in
          let existingWorkers := map worker_name workers in
          let workersValid :=
            forallb (includes existingWorkers)
                    ["connectree-api"; "connectree-api-staging"] in
          let sslValid := (0 <? length certificates)%nat in
          (Ok {| iv_dns_valid := valid dnsValidation;
                 iv_dns_issues := issues dnsValidation;
                 iv_pages_valid := pagesValid;
                 iv_pages_domains :=
                   match connectreeProject with
                   | Some p => project_domains p
                   | None => []
                   end;
                 iv_workers_valid := workersValid;
                 iv_workers_workers := existingWorkers;
                 iv_ssl_valid := sslValid;
                 iv_ssl_certificates := length certificates;
                 iv_overall :=
                   determineOverall (valid dnsValidation)
                                    (length (issues dnsValidation))
                                    pagesValid workersValid sslValid |}, t4)
      | Throw e, _, _ => (Throw e, t4)
      | Ok _, Throw e, _ => (Throw e, t4)
      | Ok _, Ok _, Throw e => (Throw e, t4)
      end.
Proof.
  unfold validateConnectreeInfrastructure.
  unfold bind at 1, start at 1.
  destruct (validateAndFixDnsRecords config remote
              expectedDnsRecords_connectree None autoFix t) as [o1 t1].
  unfold bind at 1, start at 1, listPagesProjects, request.
  unfold bind at 1, start at 1, listWorkers, request.
  unfold bind at 1, start at 1.
  destruct (fail_soft_ok (listCertificates config remote None) []
              ((t1 ++ [GET_pages_projects]) ++ [GET_workers_scripts]))
    as (certificates & t4 & E4 & _).
  exists certificates, t4. rewrite E4.
  unfold bind at 1, Promise_all4, await, ret.
  destruct o1 as [dnsValidation|e1]; cbn; [|reflexivity].
  destruct (remote_listPagesProjects remote t1) as [pages|e2]; cbn;
    [|reflexivity].
  destruct (remote_listWorkers remote (t1 ++ [GET_pages_projects]))
    as [workers|e3]; cbn; reflexivity.
Qed.

(** X14.  Facts about every result of the infrastructure validation: DNS is valid
    exactly when the issue list is empty, and there are at most 5 issues;
    ssl is valid exactly when the certificate count is positive; the workers
    are valid exactly when both 'connectree-api' and 'connectree-api-staging'
    are among the listed names; valid pages have a non-empty domain list.
    The overall status is degraded whenever there is no certificate, and it
    is unhealthy exactly when there is a certificate and either more than 2
    DNS issues, or no DNS issue and invalid pages or workers. *)
Theorem validateConnectreeInfrastructure_invariants (autoFix : bool)
    (t t' : Trace) (r : InfrastructureValidation) :
  validateConnectreeInfrastructure config remote autoFix t = (Ok r, t') ->
  (iv_dns_valid r = true <-> iv_dns_issues r = [])
  /\ (length (iv_dns_issues r) <= 5)%nat
  /\ (iv_ssl_valid r = true <-> (0 < iv_ssl_certificates r)%nat)
  /\ (iv_workers_valid r = true <->
      In "connectree-api" (iv_workers_workers r)
      /\ In "connectree-api-staging" (iv_workers_workers r))
  /\ (iv_pages_valid r = true -> iv_pages_domains r <> [])
  /\ (iv_ssl_certificates r = 0%nat -> iv_overall r = degraded)
  /\ (iv_overall r = unhealthy <->
      (0 < iv_ssl_certificates r)%nat
      /\ ((2 < length (iv_dns_issues r))%nat
          \/ (iv_dns_issues r = []
              /\ (iv_pages_valid r = false \/ iv_workers_valid r = false)))).
Proof.
  intros Hrun.
  destruct (validateConnectreeInfrastructure_run autoFix t)
    as (certificates & t4 & E).
  rewrite E in Hrun. clear E.
  destruct (validateAndFixDnsRecords config remote
              expectedDnsRecords_connectree None autoFix t)
    as [[dv|e1] t1] eqn:Hdv; [|discriminate].
  destruct (remote_listPagesProjects remote t1) as [pages|e2];
    [|discriminate].
  destruct (remote_listWorkers remote (t1 ++ [GET_pages_projects]))
    as [workers|e3]; [|discriminate].
  cbv zeta in Hrun. injection Hrun as <- <-.
  destruct (validateAndFixDnsRecords_valid_iff _ _ _ _ _ _ Hdv)
    as [Hvalid Hlen].
  cbn [iv_dns_valid iv_dns_issues iv_pages_valid iv_pages_domains
       iv_workers_valid iv_workers_workers iv_ssl_valid iv_ssl_certificates
       iv_overall].
  split; [exact Hvalid|]. split; [exact Hlen|].
  split; [apply Nat.ltb_lt|].
  split.
  { cbn [forallb]. rewrite !andb_true_iff, !includes_In. tauto. }
  split.
  { destruct (find _ pages) as [p|]; [|discriminate].
    destruct (project_domains p); [discriminate|]. discriminate. }
  split.
  { intros H0. unfold determineOverall. rewrite H0. cbn.
    rewrite andb_false_r, orb_true_r. reflexivity. }
  match goal with
  | |- context [determineOverall _ _ ?p ?w _] =>
      generalize p, w; intros pv wv
  end.
  unfold determineOverall.
  destruct (valid dv) eqn:Hv.
  - assert (Hnil : issues dv = []) by now apply Hvalid.
    rewrite Hnil. cbn [length].
    destruct pv, wv;
      destruct (Nat.ltb_spec 0 (length certificates)) as [Hc | Hc]; cbn;
      split; intros H; try discriminate; try reflexivity;
      repeat match goal with
             | H : _ /\ _ |- _ => destruct H
             | H : _ \/ _ |- _ => destruct H
             end; try discriminate; try lia; auto.
  - assert (Hne : issues dv <> []).
    { intros Hnil. apply Hvalid in Hnil. congruence. }
    cbn [negb andb].
    destruct (Nat.leb_spec (length (issues dv)) 2) as [Hle | Hgt];
      destruct (Nat.ltb_spec 0 (length certificates)) as [Hc | Hc]; cbn;
      split; intros H; try discriminate; try reflexivity;
      repeat match goal with
             | H : _ /\ _ |- _ => destruct H
             | H : _ \/ _ |- _ => destruct H
             end; try discriminate; try lia; try contradiction; auto.
Qed.


End InfrastructureMore.

(** ** Further properties of the environment preparation *)

Lemma expectedWorkersOf_one (environment : Environment) :
  exists name, expectedWorkersOf environment = [name].
Proof. destruct environment; eexists; reflexivity. Qed.

Lemma missingWorkersOf_nil_iff (expectedWorkers existingWorkers : list string) :
  missingWorkersOf expectedWorkers existingWorkers = [] <->
  forall name, In name expectedWorkers -> In name existingWorkers.
Proof.
  unfold missingWorkersOf.
  induction expectedWorkers as [|w ws IH]; cbn.
  - split; [intros _ name [] | reflexivity].
  - destruct (includes existingWorkers w) eqn:Hw; cbn.
    + rewrite IH. apply includes_In in Hw. split.
      * intros H name [<- | Hin]; auto.
      * intros H name Hin. apply H. now right.
    + split; [discriminate|]. intros H. exfalso.
      assert (Hin : In w existingWorkers) by (apply H; now left).
      apply includes_In in Hin. congruence.
Qed.

Section PreparationMore.

Variable config : CloudFlareConfig.
Variable remote : Remote.

Lemma checkPagesProject_spec (options : Options) (issues : list string)
    (t : Trace) :
  exists (pagesExists : bool) (pagesDomains extra : list string) (t' : Trace),
    checkPagesProject remote options issues t
    = (Ok (pagesExists, pagesDomains, issues ++ extra), t')
    /\ (pagesExists = true <-> extra = []).
Proof.
  unfold checkPagesProject, try_catch at 1, bind at 1, getPagesProject, request.
  destruct (remote_getPagesProject remote expectedPages t) as [project|error].
  - exists true, (project_domains project), []. eexists.
    unfold ret. rewrite app_nil_r. split; [reflexivity | tauto].
  - destruct (truthy_bool (ensurePages options)).
    + unfold try_catch, bind, createPagesProject, request, ret.
      destruct (remote_createPagesProject remote expectedPages
                  (t ++ [GET_pages_project expectedPages])) as [p|createError].
      * exists true, [], []. eexists. rewrite app_nil_r.
        split; [reflexivity | tauto].
      * exists false, []. eexists; eexists. split; [reflexivity|].
        split; discriminate.
    + exists false, []. eexists; eexists. split; [reflexivity|].
      split; discriminate.
Qed.

Lemma checkWorkers_spec (environment : Environment)
    (issues warnings : list string) (t : Trace) :
  exists (workersValid : bool) (existingWorkers extra warnings' : list string),
    checkWorkers remote environment issues warnings t
    = (Ok (workersValid, existingWorkers, issues ++ extra, warnings'),
       t ++ [GET_workers_scripts])
    /\ (workersValid = true -> extra = [])
    /\ (workersValid = true <->
        forall name, In name (expectedWorkersOf environment) ->
                     In name existingWorkers).
Proof.
  destruct (checkWorkers_ok remote environment issues warnings t)
    as (workersValid & existingWorkers & issues' & warnings' & E & H).
  destruct (remote_listWorkers remote t) as [workers|e].
  - cbv zeta in H. destruct H as (-> & -> & Hmissing).
    exists workersValid, (map worker_name workers), [], warnings'.
    rewrite app_nil_r. split; [exact E|]. split; [reflexivity|].
    rewrite <- missingWorkersOf_nil_iff.
    destruct Hmissing as [(Hnil & -> & _) | (Hne & -> & _)].
    + tauto.
    + split; [discriminate | contradiction].
  - destruct H as (-> & -> & -> & ->).
    exists false, []. eexists. exists warnings.
    split; [exact E|]. split; [discriminate|].
    split; [discriminate|].
    intros H. destruct (expectedWorkersOf_one environment) as (name & Hname).
    rewrite Hname in H. destruct (H name (or_introl eq_refl)).
Qed.

Lemma checkDns_spec (environment : Environment) (options : Options)
    (issues warnings : list string) (t : Trace) :
  exists (dnsValid : bool) (dnsIssues : list Issue)
         (extra warnings' : list string) (t' : Trace),
    checkDns config remote environment options issues warnings t
    = (Ok (dnsValid, dnsIssues, issues ++ extra, warnings'), t')
    /\ (dnsValid = true ->
        extra = [] /\ dnsIssues = []
        /\ truthy_bool (validateDns options) = true)
    /\ (dnsIssues <> [] -> dnsValid = false)
    /\ (truthy_bool (validateDns options) = false -> extra = []).
Proof.
  unfold checkDns.
  destruct (truthy_bool (validateDns options)).
  - unfold try_catch, bind. cbv zeta.
    destruct (validateAndFixDnsRecords config remote
                (getExpectedDnsRecords environment) None
                (truthy_bool (autoFixDns options)) t)
      as [[dv|error] t'] eqn:Hdv.
    + destruct (validateAndFixDnsRecords_valid_iff config remote
                  _ _ _ _ _ _ Hdv) as [Hvalid _].
      destruct dv as [dnsValid dnsIssues dnsFixed]. cbn in Hvalid.
      destruct dnsValid.
      * exists true, dnsIssues, [], warnings, t'. unfold ret.
        rewrite app_nil_r. split; [reflexivity|].
        assert (dnsIssues = []) by now apply Hvalid.
        repeat split; auto. intros; congruence.
      * destruct (negb (truthy_bool (autoFixDns options)));
          exists false, dnsIssues, []; eexists; exists t'; unfold ret;
          rewrite app_nil_r; (split; [reflexivity|]);
          repeat split; auto; discriminate.
    + exists false, []. eexists. exists warnings, t'. unfold ret.
      split; [reflexivity|]. repeat split; auto; discriminate.
  - exists false, [], [], warnings, t. unfold ret. rewrite app_nil_r.
    split; [reflexivity|]. repeat split; auto; discriminate.
Qed.

Lemma prepareDeploymentEnvironment_shape (environment : Environment)
    (options : Options) (t t' : Trace) (r : Preparation) :
  prepareDeploymentEnvironment config remote environment options t
  = (Ok r, t') ->
  exists extra1 extra2 extra3 : list string,
    prep_issues r = (extra1 ++ extra2) ++ extra3
    /\ ready r
       = (length (prep_issues r) =? 0)%nat
         && (if truthy_bool (validateDns options) then dns_valid r else true)
    /\ (pages_exists r = true <-> extra1 = [])
    /\ (workers_exists r = true -> extra2 = [])
    /\ (dns_valid r = true ->
        extra3 = [] /\ dns_issues r = []
        /\ truthy_bool (validateDns options) = true)
    /\ (dns_issues r <> [] -> dns_valid r = false)
    /\ (truthy_bool (validateDns options) = false ->
        extra3 = [] /\ dns_issues r = []).
Proof.
  destruct (checkPagesProject_spec options [] t)
    as (pagesExists & pagesDomains & extra1 & t1 & E1 & H1).
  destruct (checkWorkers_spec environment ([] ++ extra1) [] t1)
    as (workersValid & existingWorkers & extra2 & warnings2 & E2 & H2 & _).
  destruct (checkDns_spec environment options (([] ++ extra1) ++ extra2)
              warnings2 (t1 ++ [GET_workers_scripts]))
    as (dnsValid & dnsIssues & extra3 & warnings3 & t3 & E3 & H3 & H4 & H5).
  unfold prepareDeploymentEnvironment.
  unfold bind at 1. rewrite E1.
  unfold bind at 1. rewrite E2.
  unfold bind at 1. rewrite E3.
  unfold ret. intros Hrun. injection Hrun as <- <-.
  cbn [ready prep_issues pages_exists workers_exists dns_valid dns_issues].
  exists extra1, extra2, extra3. cbn [app].
  split; [reflexivity|]. split; [reflexivity|].
  split; [exact H1|]. split; [exact H2|]. split; [exact H3|].
  split; [exact H4|].
  intros Hv. split; [now apply H5|].
  destruct dnsIssues as [|i rest]; [reflexivity|].
  revert E3. unfold checkDns. rewrite Hv. unfold ret. discriminate.
Qed.

Lemma issues_empty_iff (extra1 extra2 extra3 : list string) :
  (length ((extra1 ++ extra2) ++ extra3) =? 0)%nat = true <->
  extra1 = [] /\ extra2 = [] /\ extra3 = [].
Proof.
  rewrite Nat.eqb_eq, length_zero_iff_nil. split.
  - intros H. apply app_eq_nil in H as [H ->].
    apply app_eq_nil in H as [-> ->]. auto.
  - intros (-> & -> & ->). reflexivity.
Qed.

(** If the Pages project exists, the workers exist and (when DNS is
    validated) DNS is valid, the environment is ready. *)
Lemma prepareDeploymentEnvironment_all_pass (environment : Environment)
    (options : Options) (t t' : Trace) (r : Preparation) :
  prepareDeploymentEnvironment config remote environment options t
  = (Ok r, t') ->
  pages_exists r = true -> workers_exists r = true ->
  (truthy_bool (validateDns options) = true -> dns_valid r = true) ->
  ready r = true.
Proof.
  intros Hrun Hp Hw Hd.
  destruct (prepareDeploymentEnvironment_shape _ _ _ _ _ Hrun)
    as (extra1 & extra2 & extra3 & Hi & Hr & H1 & H2 & H3 & _ & H5).
  rewrite Hr, Hi. apply andb_true_iff. split.
  - apply issues_empty_iff. split; [now apply H1|]. split; [now apply H2|].
    destruct (truthy_bool (validateDns options)) eqn:Hv.
    + now destruct (H3 (Hd eq_refl)).
    + now destruct (H5 eq_refl).
  - destruct (truthy_bool (validateDns options)); auto.
Qed.

(** X16.  How the readiness flag relates to the resources reported beside it.
    A ready environment has its Pages project (found or just created) and,
    when DNS is validated, valid DNS with no issue.  Conversely an existing
    Pages project, existing workers and (when validated) valid DNS make it
    ready.  DNS issues found in a run make that run not ready, also when
    autoFixDns was on and every fix was accepted; DNS is only reported valid
    when validateDns is set. *)
Theorem prepareDeploymentEnvironment_resources (environment : Environment)
    (options : Options) (t t' : Trace) (r : Preparation) :
  prepareDeploymentEnvironment config remote environment options t
  = (Ok r, t') ->
  (ready r = true ->
   pages_exists r = true
   /\ (truthy_bool (validateDns options) = true ->
       dns_valid r = true /\ dns_issues r = []))
  /\ (pages_exists r = true -> workers_exists r = true ->
      (truthy_bool (validateDns options) = true -> dns_valid r = true) ->
      ready r = true)
  /\ (dns_issues r <> [] -> ready r = false)
  /\ (dns_valid r = true -> truthy_bool (validateDns options) = true).
Proof.
  intros Hrun.
  destruct (prepareDeploymentEnvironment_shape _ _ _ _ _ Hrun)
    as (extra1 & extra2 & extra3 & Hi & Hr & H1 & H2 & H3 & H4 & H5).
  split; [|split; [|split]].
  - intros Hready. rewrite Hr, Hi in Hready.
    apply andb_true_iff in Hready as [He Hd].
    apply issues_empty_iff in He as (He1 & _ & _).
    split; [now apply H1|].
    intros Hv. rewrite Hv in Hd.
    destruct (H3 Hd) as (_ & Hnil & _). auto.
  - now apply (prepareDeploymentEnvironment_all_pass _ _ _ _ _ Hrun).
  - intros Hne. rewrite Hr, (H4 Hne).
    destruct (truthy_bool (validateDns options)) eqn:Hv.
    + apply andb_false_r.
    + exfalso. apply Hne. now destruct (H5 eq_refl).
  - intros Hd. now destruct (H3 Hd) as (_ & _ & Hv).
Qed.

(** X17.  The workers flag of the preparation is true exactly when the worker the
    environment expects ('connectree-api' for production,
    'connectree-api-staging' for staging) is among the names reported; a
    failed read of the list reports no name and a false flag. *)
Theorem prepareDeploymentEnvironment_workers (environment : Environment)
    (options : Options) (t t' : Trace) (r : Preparation) :
  prepareDeploymentEnvironment config remote environment options t
  = (Ok r, t') ->
  (workers_exists r = true <->
   In (match environment with
       | production => "connectree-api"
       | staging => "connectree-api-staging"
       end) (workers_names r))
  /\ forall e,
       remote_listWorkers remote (snd (checkPagesProject remote options [] t))
       = Throw e ->
       workers_exists r = false /\ workers_names r = [].
Proof.
  destruct (checkPagesProject_spec options [] t)
    as (pagesExists & pagesDomains & extra1 & t1 & E1 & H1).
  destruct (checkWorkers_spec environment ([] ++ extra1) [] t1)
    as (workersValid & existingWorkers & extra2 & warnings2 & E2 & _ & H2).
  destruct (checkWorkers_ok remote environment ([] ++ extra1) [] t1)
    as (wv & ew & i2 & w2 & E2' & H2').
  destruct (checkDns_spec environment options (([] ++ extra1) ++ extra2)
              warnings2 (t1 ++ [GET_workers_scripts]))
    as (dnsValid & dnsIssues & extra3 & warnings3 & t3 & E3 & _).
  rewrite E2 in E2'. injection E2' as <- <- Hi2 <-.
  unfold prepareDeploymentEnvironment.
  unfold bind at 1. rewrite E1.
  unfold bind at 1. rewrite E2.
  unfold bind at 1. rewrite E3.
  unfold ret. intros Hrun. injection Hrun as <- <-.
  cbn [workers_exists workers_names snd].
  split.
  - rewrite H2. destruct environment; cbn; split.
    + intros H. apply H. now left.
    + intros H name [<- | []]. exact H.
    + intros H. apply H. now left.
    + intros H name [<- | []]. exact H.
  - intros e He. rewrite He in H2'. destruct H2' as (_ & -> & -> & _). auto.
Qed.

End PreparationMore.

(** ** Further properties of the deployment report *)

Lemma summarize_recommend
    (dnsValid pagesExists workersExists sslHealthy : bool) :
  let s := summarize dnsValid pagesExists workersExists sslHealthy in
  let n :=
    length (recommend dnsValid pagesExists workersExists sslHealthy) in
  readiness s = (100 - 25 * Z.of_nat n)%Z
  /\ (summary_status s = status_ready <-> n = 0%nat)
  /\ (summary_status s = status_issues <-> n = 1%nat)
  /\ (summary_status s = status_failed <-> (2 <= n)%nat)
  /\ (summary_status s = status_ready ->
      dnsValid = true /\ pagesExists = true /\ workersExists = true
      /\ sslHealthy = true).
Proof.
  destruct dnsValid, pagesExists, workersExists, sslHealthy; cbn;
    repeat split; intros; try discriminate; try reflexivity; try lia.
Qed.

Section ReportMore.

Variable config : CloudFlareConfig.
Variable remote : Remote.

Lemma prepareDeploymentEnvironment_returns (environment : Environment)
    (options : Options) (t : Trace) :
  exists (r : Preparation) (t' : Trace),
    prepareDeploymentEnvironment config remote environment options t
    = (Ok r, t').
Proof.
  destruct (checkPagesProject_spec remote options [] t)
    as (pagesExists & pagesDomains & extra1 & t1 & E1 & _).
  destruct (checkWorkers_spec remote environment ([] ++ extra1) [] t1)
    as (workersValid & existingWorkers & extra2 & warnings2 & E2 & _).
  destruct (checkDns_spec config remote environment options
              (([] ++ extra1) ++ extra2) warnings2
              (t1 ++ [GET_workers_scripts]))
    as (dnsValid & dnsIssues & extra3 & warnings3 & t3 & E3 & _).
  unfold prepareDeploymentEnvironment.
  unfold bind at 1. rewrite E1.
  unfold bind at 1. rewrite E2.
  unfold bind at 1. rewrite E3.
  unfold ret. eauto.
Qed.

Lemma generateDeploymentReport_inv (now : string) (environment : Environment)
    (t t' : Trace) (rep : Report) :
  generateDeploymentReport config remote now environment t = (Ok rep, t') ->
  exists (t1 : Trace) (hc : HealthCheck),
    prepareDeploymentEnvironment config remote environment
      {| validateDns := Some true; autoFixDns := Some false;
         ensurePages := Some false; validateWorkers := Some true |} t
    = (Ok (components_preparation rep), t1)
    /\ comprehensiveHealthCheck config remote t1 = (Ok hc, t')
    /\ components_ssl rep = svc_ssl (hc_services hc)
    /\ components_overall rep = hc_status hc
    /\ recommendations rep
       = recommend (dns_valid (components_preparation rep))
                   (pages_exists (components_preparation rep))
                   (workers_exists (components_preparation rep))
                   (Status_eqb (svc_status (components_ssl rep)) healthy)
    /\ summary rep
       = summarize (dns_valid (components_preparation rep))
                   (pages_exists (components_preparation rep))
                   (workers_exists (components_preparation rep))
                   (Status_eqb (svc_status (components_ssl rep)) healthy).
Proof.
  unfold generateDeploymentReport, bind.
  destruct (prepareDeploymentEnvironment _ _ _ _ t) as [[prep|e] t1] eqn:E1;
    [|discriminate].
  destruct (comprehensiveHealthCheck config remote t1) as [[hc|e] t2] eqn:E2;
    [|discriminate].
  unfold ret. intros H. injection H as <- <-.
  exists t1, hc. cbn. repeat split; assumption.
Qed.

(** X18.  Consistency of a deployment report: the readiness is 100 minus 25 per
    recommendation; the status is 'ready' exactly when there is no
    recommendation, 'issues' exactly when there is one, 'failed' exactly when
    there are two or more; and a report with status 'ready' carries a
    preparation result that is ready and an ssl component that is healthy
    with a positive certificate count. *)
Theorem generateDeploymentReport_consistency (now : string)
    (environment : Environment) (t t' : Trace) (rep : Report) :
  generateDeploymentReport config remote now environment t = (Ok rep, t') ->
  let n := length (recommendations rep) in
  readiness (summary rep) = (100 - 25 * Z.of_nat n)%Z
  /\ (summary_status (summary rep) = status_ready <-> n = 0%nat)
  /\ (summary_status (summary rep) = status_issues <-> n = 1%nat)
  /\ (summary_status (summary rep) = status_failed <-> (2 <= n)%nat)
  /\ (summary_status (summary rep) = status_ready ->
      ready (components_preparation rep) = true
      /\ svc_status (components_ssl rep) = healthy
      /\ (0 < svc_count (components_ssl rep))%nat).
Proof.
  intros Hrun.
  destruct (generateDeploymentReport_inv _ _ _ _ _ Hrun)
    as (t1 & hc & Hprep & Hhc & Hssl & _ & Hrec & Hsum).
  cbv zeta. rewrite Hrec, Hsum.
  destruct (summarize_recommend
              (dns_valid (components_preparation rep))
              (pages_exists (components_preparation rep))
              (workers_exists (components_preparation rep))
              (Status_eqb (svc_status (components_ssl rep)) healthy))
    as (H1 & H2 & H3 & H4 & H5).
  split; [exact H1|]. split; [exact H2|]. split; [exact H3|].
  split; [exact H4|].
  intros Hready. destruct (H5 Hready) as (Hd & Hp & Hw & Hs).
  split.
  - apply (prepareDeploymentEnvironment_all_pass config remote _ _ _ _ _ Hprep);
      auto.
  - apply Status_eqb_eq in Hs. split; [exact Hs|].
    destruct (comprehensiveHealthCheck_inv config remote _ _ _ Hhc)
      as (ws & ps & ds & cs & Hserv & _).
    rewrite Hssl, Hserv in Hs |- *. cbn in Hs |- *.
    destruct cs; [discriminate | cbn; lia].
Qed.

(** X19.  The report never fails because of the preparation, which always
    returns; it throws exactly what the health check run after it throws,
    and returns a report carrying both results when the health check
    returns. *)
Theorem generateDeploymentReport_failure (now : string)
    (environment : Environment) (t : Trace) :
  exists (prep : Preparation) (t1 : Trace),
    prepareDeploymentEnvironment config remote environment
      {| validateDns := Some true; autoFixDns := Some false;
         ensurePages := Some false; validateWorkers := Some true |} t
    = (Ok prep, t1)
    /\ (forall e t',
          comprehensiveHealthCheck config remote t1 = (Throw e, t') ->
          generateDeploymentReport config remote now environment t
          = (Throw e, t'))
    /\ (forall hc t',
          comprehensiveHealthCheck config remote t1 = (Ok hc, t') ->
          exists rep,
            generateDeploymentReport config remote now environment t
            = (Ok rep, t')
            /\ components_preparation rep = prep
            /\ components_overall rep = hc_status hc
            /\ components_ssl rep = svc_ssl (hc_services hc)).
Proof.
  destruct (prepareDeploymentEnvironment_returns environment
              {| validateDns := Some true; autoFixDns := Some false;
                 ensurePages := Some false; validateWorkers := Some true |} t)
    as (prep & t1 & E).
  exists prep, t1. split; [exact E|].
  unfold generateDeploymentReport, bind. rewrite E. split.
  - intros e t' Hhc. now rewrite Hhc.
  - intros hc t' Hhc. rewrite Hhc. unfold ret. eexists.
    split; [reflexivity|]. cbn. auto.
Qed.

End ReportMore.

(** X20.  The score is monotone: turning failed checks into passed ones never
    lowers the readiness, never loses the status 'ready', never produces the
    status 'failed', and never adds a recommendation. *)
Theorem summarize_monotone
    (dnsValid pagesExists workersExists sslHealthy : bool)
    (dnsValid' pagesExists' workersExists' sslHealthy' : bool) :
  (dnsValid = true -> dnsValid' = true) ->
  (pagesExists = true -> pagesExists' = true) ->
  (workersExists = true -> workersExists' = true) ->
  (sslHealthy = true -> sslHealthy' = true) ->
  let s := summarize dnsValid pagesExists workersExists sslHealthy in
  let s' := summarize dnsValid' pagesExists' workersExists' sslHealthy' in
  (readiness s <= readiness s')%Z
  /\ (summary_status s = status_ready -> summary_status s' = status_ready)
  /\ (summary_status s' = status_failed -> summary_status s = status_failed)
  /\ (length (recommend dnsValid' pagesExists' workersExists' sslHealthy')
      <= length (recommend dnsValid pagesExists workersExists sslHealthy))%nat.
Proof.
  intros Hd Hp Hw Hs.
  destruct dnsValid, dnsValid';
    try (specialize (Hd eq_refl); discriminate Hd);
    destruct pagesExists, pagesExists';
    try (specialize (Hp eq_refl); discriminate Hp);
    destruct workersExists, workersExists';
    try (specialize (Hw eq_refl); discriminate Hw);
    destruct sslHealthy, sslHealthy';
    try (specialize (Hs eq_refl); discriminate Hs);
    cbn; repeat split; intros; try discriminate; try reflexivity; try lia.
Qed.

(** *** Concrete runs for the further properties *)

Lemma validateAndFixDnsRecords_writes_witness :
  exists (r : DnsValidation) (t' : Trace),
    validateAndFixDnsRecords sampleConfig (dnsRemote [observedOld] false)
                             [desiredA; desiredTtl0] None true [] = (Ok r, t')
    /\ exists (zone : string) (writes : list ApiCall),
         t' = [] ++ GET_dns_records zone :: writes
         /\ (true = false -> writes = [])
         /\ (true = true -> Forall2 (fixes zone) (issues r) writes).
Proof.
  eexists; eexists. split; [vm_compute; reflexivity|].
  apply (validateAndFixDnsRecords_writes
           sampleConfig (dnsRemote [observedOld] false)
           [desiredA; desiredTtl0] None true [] _ _ eq_refl).
Defined.

Lemma validateAndFixDnsRecords_bounds_witness :
  exists (r : DnsValidation) (t' : Trace),
    validateAndFixDnsRecords sampleConfig (dnsRemote [observedOld] true)
                             [desiredA] None true [] = (Ok r, t')
    /\ (length (issues r) <= 1)%nat
    /\ (fixed r = true -> true = true /\ valid r = false).
Proof.
  eexists; eexists. split; [vm_compute; reflexivity|].
  destruct (validateAndFixDnsRecords_bounds
              sampleConfig (dnsRemote [observedOld] true) [desiredA] None true
              [] _ _ eq_refl) as (Hlen & _ & Hfixed).
  split; [exact Hlen | exact Hfixed].
Defined.

Lemma validateAndFixDnsRecords_actions_witness :
  exists (r : DnsValidation) (t' : Trace),
    validateAndFixDnsRecords sampleConfig (dnsRemote [] true)
                             [desiredA] None false [] = (Ok r, t')
    /\ In (missingIssue false desiredA) (issues r)
    /\ issue_action (missingIssue false desiredA) <> EmptyString
    /\ (issue_type (missingIssue false desiredA) = missing ->
        issue_action (missingIssue false desiredA) = "REQUIRES_CREATION").
Proof.
  eexists; eexists. split; [vm_compute; reflexivity|].
  assert (Hin : In (missingIssue false desiredA)
                   [missingIssue false desiredA]) by (left; reflexivity).
  split; [exact Hin|].
  destruct (validateAndFixDnsRecords_actions
              sampleConfig (dnsRemote [] true) [desiredA] None false
              [] _ _ eq_refl (missingIssue false desiredA) Hin)
    as (Hne & Hm & _).
  split; [exact Hne | exact Hm].
Defined.

Lemma validateAndFixDnsRecords_preview_witness :
  exists (r1 r2 : DnsValidation) (t1 t2 : Trace),
    (forall zone,
        remote_listDnsRecords (dnsRemote [observedOld] false) zone []
        = remote_listDnsRecords (dnsRemote [observedOld] true) zone [])
    /\ validateAndFixDnsRecords sampleConfig (dnsRemote [observedOld] true)
                                [desiredA] None false [] = (Ok r1, t1)
    /\ validateAndFixDnsRecords sampleConfig (dnsRemote [observedOld] false)
                                [desiredA] None true [] = (Ok r2, t2)
    /\ valid r2 = valid r1
    /\ map finding (issues r2) = map finding (issues r1).
Proof.
  eexists; eexists; eexists; eexists.
  split; [intros zone; reflexivity|].
  split; [vm_compute; reflexivity|].
  split; [vm_compute; reflexivity|].
  destruct (validateAndFixDnsRecords_preview
              sampleConfig (dnsRemote [observedOld] true)
              (dnsRemote [observedOld] false) [desiredA] None [] _ _ _ _
              (fun zone => eq_refl) eq_refl eq_refl) as (Hv & Hf & _).
  split; [exact Hv | exact Hf].
Defined.


(** A refused first create stops the bulk creation: the second record is
    never requested. *)
Example bulkCreateDnsRecords_refused :
  bulkCreateDnsRecords sampleConfig (dnsRemote [] false)
                       [desiredA; desiredTtl0] None []
  = (Throw (ErrorObj "API request failed: forbidden"),
     [POST_dns_records "zone-1" desiredA]).
Proof. reflexivity. Qed.

Lemma comprehensiveHealthCheck_counts_witness :
  exists (r : HealthCheck) (t' : Trace),
    comprehensiveHealthCheck sampleConfig remoteAllPresent [] = (Ok r, t')
    /\ (hc_status r = healthy <->
        (0 < svc_count (svc_workers (hc_services r))
         /\ 0 < svc_count (svc_pages (hc_services r))
         /\ 0 < svc_count (svc_dns (hc_services r))
         /\ 0 < svc_count (svc_ssl (hc_services r)))%nat).
Proof.
  eexists; eexists. split; [vm_compute; reflexivity|].
  exact (proj1 (comprehensiveHealthCheck_counts
                  sampleConfig remoteAllPresent [] _ _ eq_refl)).
Defined.

Lemma comprehensiveHealthCheck_dns_read_fails_witness :
  remote_listWorkers remoteDnsDown [] = Ok connectreeWorkers
  /\ remote_listPagesProjects remoteDnsDown (afterWorkers [])
     = Ok [connectreeProject]
  /\ remote_listZones remoteDnsDown (afterPages []) = Ok [connectreeZone]
  /\ fst (listDnsRecords sampleConfig remoteDnsDown None
            (afterCertificates sampleConfig remoteDnsDown []))
     = Throw transportError
  /\ exists (r : HealthCheck) (t' : Trace),
       comprehensiveHealthCheck sampleConfig remoteDnsDown [] = (Ok r, t')
       /\ svc_count (svc_dns (hc_services r)) = 0%nat
       /\ svc_status (svc_dns (hc_services r)) = unhealthy
       /\ hc_status r = unhealthy.
Proof.
  split; [reflexivity|]. split; [reflexivity|]. split; [reflexivity|].
  split; [reflexivity|].
  apply (comprehensiveHealthCheck_dns_read_fails
           sampleConfig remoteDnsDown [] connectreeWorkers [connectreeProject]
           [connectreeZone] transportError); reflexivity.
Defined.


Lemma validateConnectreeInfrastructure_invariants_witness :
  exists (r : InfrastructureValidation) (t' : Trace),
    validateConnectreeInfrastructure sampleConfig remoteWithoutPages true []
    = (Ok r, t')
    /\ (iv_dns_valid r = true <-> iv_dns_issues r = [])
    /\ (length (iv_dns_issues r) <= 5)%nat
    /\ (iv_ssl_certificates r = 0%nat -> iv_overall r = degraded).
Proof.
  eexists; eexists. split; [vm_compute; reflexivity|].
  destruct (validateConnectreeInfrastructure_invariants
              sampleConfig remoteWithoutPages true [] _ _ eq_refl)
    as (H1 & H2 & _ & _ & _ & H6 & _).
  split; [exact H1|]. split; [exact H2 | exact H6].
Defined.


Lemma prepareDeploymentEnvironment_resources_witness :
  exists (r : Preparation) (t' : Trace),
    prepareDeploymentEnvironment sampleConfig remoteStaleDns production
                                 fixOptions [] = (Ok r, t')
    /\ dns_issues r <> []
    /\ ready r = false.
Proof.
  eexists; eexists. split; [vm_compute; reflexivity|].
  assert (Hne : forall (i : Issue) (rest : list Issue), i :: rest <> [])
    by discriminate.
  split; [apply Hne|].
  destruct (prepareDeploymentEnvironment_resources
              sampleConfig remoteStaleDns production fixOptions
              [] _ _ eq_refl) as (_ & _ & H & _).
  apply H. apply Hne.
Defined.

Lemma prepareDeploymentEnvironment_workers_witness :
  exists (r : Preparation) (t' : Trace),
    prepareDeploymentEnvironment sampleConfig remoteAllPresent staging
                                 noOptions [] = (Ok r, t')
    /\ (workers_exists r = true <->
        In "connectree-api-staging" (workers_names r)).
Proof.
  eexists; eexists. split; [vm_compute; reflexivity|].
  exact (proj1 (prepareDeploymentEnvironment_workers
                  sampleConfig remoteAllPresent staging noOptions
                  [] _ _ eq_refl)).
Defined.

Lemma generateDeploymentReport_consistency_witness :
  exists (rep : Report) (t' : Trace),
    generateDeploymentReport sampleConfig remoteCertificatesDown
                             "2025-01-01T00:00:00.000Z" production []
    = (Ok rep, t')
    /\ readiness (summary rep)
       = (100 - 25 * Z.of_nat (length (recommendations rep)))%Z
    /\ (summary_status (summary rep) = status_issues <->
        length (recommendations rep) = 1%nat).
Proof.
  eexists; eexists. split; [vm_compute; reflexivity|].
  destruct (generateDeploymentReport_consistency
              sampleConfig remoteCertificatesDown "2025-01-01T00:00:00.000Z"
              production [] _ _ eq_refl) as (H1 & _ & H3 & _).
  split; [exact H1 | exact H3].
Defined.

Lemma summarize_monotone_witness :
  (false = true -> true = true)
  /\ (readiness (summarize false true true false)
      <= readiness (summarize true true true false))%Z.
Proof.
  split; [reflexivity|].
  exact (proj1 (summarize_monotone false true true false true true true false
                  (fun _ => eq_refl) (fun H => H) (fun H => H) (fun H => H))).
Defined.
